(** * VPManager: virtual-process topology of the NEST kernel

    A shallow embedding of [nestkernel/vp_manager.cpp] and the properties of
    its partition functions, its VP/thread mappings, its reconfiguration
    guard ([VPManager::set_status]) and the other members ([init], [reset],
    [set_num_threads], [get_status]). *)

From Stdlib Require Import ZArith Lia Bool.
From stdpp Require Import base gmap strings list.

Local Open Scope Z_scope.

(** ** Integers

    [vp_manager.cpp] computes with [long], [int], [nest::thread] and
    [nest::index].  C++ division and remainder truncate towards zero, which is
    [Z.quot] and [Z.rem]. *)

(** Modelled from the spec: the typedef [nest::thread] (declared in nest.h,
    which is not among the sources).  The spec asks for "an integer width
    sufficient for tens of thousands of processes × threads", so values are
    unbounded integers and no wrap-around is modelled. *)
Definition thread : Type := Z.

(** Modelled from the spec: the typedef [nest::index] (declared in nest.h,
    which is not among the sources); "GlobalId: non-negative integer". *)
Definition index : Type := Z.

Definition cdiv (a b : Z) : Z := Z.quot a b.
Definition cmod (a b : Z) : Z := Z.rem a b.

Infix "/c" := cdiv (at level 40, left associativity) : Z_scope.
Infix "%c" := cmod (at level 40, left associativity) : Z_scope.

(** ** The collaborators [VPManager] reads

    Only the queries made by [vp_manager.cpp] appear; each field carries the
    name of the member or accessor the source calls. *)

Record ConnectionManager := {
  has_user_prototypes : bool;
  get_user_set_delay_extrema : bool
}.

Record Network := {
  size : Z;                       (* Network::size() *)
  models_size : Z;                (* models_.size() *)
  pristine_models_size : Z;       (* pristine_models_.size() *)
  connection_manager_ : ConnectionManager;
  get_simulated : bool;
  model_defaults_modified : bool;
  n_sim_procs_ : Z;
  n_rec_procs_ : Z
}.

Record Communicator := {
  get_num_processes : Z;
  get_rank : Z
}.

(** ** The manager's own fields *)

Record VPManager := {
  force_singlethreading_ : bool;
  n_threads_ : Z
}.

(** [VPManager::VPManager()] *)
Definition VPManager_ctor : VPManager :=
  {| force_singlethreading_ := false; n_threads_ := 1 |}.

(** ** Partition functions and VP/thread mappings *)

Section Mappings.
Variable net : Network.
Variable comm : Communicator.
Variable m : VPManager.

Definition suggest_vp (gid : index) : thread :=
  gid %c (n_sim_procs_ net * n_threads_ m).

Definition suggest_rec_vp (gid : index) : thread :=
  gid %c (n_rec_procs_ net * n_threads_ m)
  + n_sim_procs_ net * n_threads_ m.

Definition vp_to_thread (vp : thread) : thread :=
  if vp >=? n_sim_procs_ net * n_threads_ m
  then (vp + n_sim_procs_ net * (1 - n_threads_ m) - get_rank comm)
       /c n_rec_procs_ net
  else vp /c n_sim_procs_ net.

Definition thread_to_vp (t : thread) : thread :=
  if get_rank comm >=? n_sim_procs_ net
  then (* Rank is a recording process *)
    t * n_rec_procs_ net + get_rank comm
    - n_sim_procs_ net + n_sim_procs_ net * n_threads_ m
  else (* Rank is a simulating process *)
    t * n_sim_procs_ net + get_rank comm.
End Mappings.

(** ** Dictionaries

    [set_status] and [get_status] exchange a [Dictionary]; only entries read
    with [updateValue< long >] or written with [def< long >] matter here. *)

Abbreviation Dictionary := (gmap string Z).

(** [updateValue< long >( d, key, var )]: when [key] is present, [var] takes
    its value and the call returns [true]; otherwise [var] keeps the content
    it had.  The pair is (returned flag, content of [var] afterwards). *)
Definition updateValue (d : Dictionary) (key : string) (var : Z) : bool * Z :=
  match d !! key with
  | Some v => (true, v)
  | None => (false, var)
  end.

(** [def< long >( d, key, value )] *)
Definition def (d : Dictionary) (key : string) (value : Z) : Dictionary :=
  <[key := value]> d.

(** ** Effects

    [VPManager]'s members mutate its two fields, call into collaborators and
    may throw.  The calls into collaborators are recorded, in order, in a
    trace. *)

Inductive Severity := M_WARNING | M_ERROR.

Inductive Event :=
| message (sev : Severity) (from text : string)  (* Network::message *)
| nodes_vec_resize (n : Z)                       (* nodes_vec_.resize *)
| omp_set_num_threads (n : Z)
| Communicator_set_num_threads (n : Z)
| Network_reset.

Inductive Exception :=
| KernelException (msg : string)
| BadProperty (msg : string).

Record World := {
  vpm : VPManager;
  trace : list Event
}.

Inductive Result (A : Type) :=
| Ok (a : A)
| Throw (e : Exception).
Arguments Ok {A} a.
Arguments Throw {A} e.

Definition K (A : Type) : Type := World -> Result A * World.

#[global] Instance K_ret : MRet K := fun A a w => (Ok a, w).

#[global] Instance K_bind : MBind K := fun A B f c w =>
  match c w with
  | (Ok a, w') => f a w'
  | (Throw e, w') => (Throw e, w')
  end.

Definition throw {A} (e : Exception) : K A := fun w => (Throw e, w).

Definition emit (e : Event) : K unit :=
  fun w => (Ok tt, {| vpm := vpm w; trace := trace w ++ [e] |}).

Definition read {A} (f : VPManager -> A) : K A := fun w => (Ok (f (vpm w)), w).

Definition assign_n_threads_ (n : Z) : K unit := fun w =>
  (Ok tt, {| vpm := {| force_singlethreading_ := force_singlethreading_ (vpm w);
                       n_threads_ := n |};
             trace := trace w |}).

Definition assign_force_singlethreading_ (b : bool) : K unit := fun w =>
  (Ok tt, {| vpm := {| force_singlethreading_ := b;
                       n_threads_ := n_threads_ (vpm w) |};
             trace := trace w |}).

Definition when (b : bool) (c : K unit) : K unit := if b then c else mret tt.

(** ** Member functions of [VPManager] *)

Definition no_multithreading : string :=
  "No multithreading available, using single threading".

Section Members.
(** [_OPENMP] is defined in the build. *)
Variable openmp : bool.
Variable net : Network.
(** [Time::resolution_is_default()] *)
Variable resolution_is_default : bool.
Variable comm : Communicator.

(** Modelled from the spec: the inline accessor
    [VPManager::get_num_threads] (vp_manager.h is not among the sources);
    "Status introspection: ... current thread count". *)
Definition get_num_threads (m : VPManager) : Z := n_threads_ m.

(** Modelled from the spec: the inline accessor
    [VPManager::get_num_virtual_processes] (vp_manager.h is not among the
    sources); "derived total VP count = threads × totalProcesses". *)
Definition get_num_virtual_processes (m : VPManager) : Z :=
  n_threads_ m * get_num_processes comm.

(** The memory-pool initialisation under [USE_PMA] touches no field of the
    manager and is left out. *)
Definition set_num_threads (n_threads : thread) : K unit :=
  assign_n_threads_ n_threads;;
  n ← read n_threads_;
  emit (nodes_vec_resize n);;
  when openmp (emit (omp_set_num_threads n));;
  emit (Communicator_set_num_threads n).

Definition init : K unit :=
  when (negb openmp)
    (n ← read n_threads_;
     when (n >? 1)
       (emit (message M_ERROR "Network::reset" no_multithreading);;
        assign_n_threads_ 1;;
        assign_force_singlethreading_ true));;
  n ← read get_num_threads;
  set_num_threads n.

Definition reset : K unit :=
  assign_force_singlethreading_ false;;
  set_num_threads 1.

(** Modelled from the spec: [Network::reset] (network.cpp is not among the
    sources); "On any accepted change: commit, then atomically propagate a
    topology-reset notification to all collaborators owning per-thread
    resources".  The notification is recorded; the manager's fields are
    left as committed. *)
Definition Network_get_network_reset : K unit := emit Network_reset.

(** The seven tests that open both branches of [set_status] (lines 64-83
    and, verbatim, lines 103-122). *)
Definition throw_if_locked : K unit :=
  when (size net >? 1)
    (throw (KernelException
      "Nodes exist: Thread/process number cannot be changed."));;
  when (models_size net >? pristine_models_size net)
    (throw (KernelException
      "Custom neuron models exist: Thread/process number cannot be changed."));;
  when (has_user_prototypes (connection_manager_ net))
    (throw (KernelException
      "Custom synapse types exist: Thread/process number cannot be changed."));;
  when (get_user_set_delay_extrema (connection_manager_ net))
    (throw (KernelException
      "Delay extrema have been set: Thread/process number cannot be changed."));;
  when (get_simulated net)
    (throw (KernelException
      "The network has been simulated: Thread/process number cannot be changed."));;
  when (negb resolution_is_default)
    (throw (KernelException
      "The resolution has been set: Thread/process number cannot be changed."));;
  when (model_defaults_modified net)
    (throw (KernelException
      "Model defaults have been modified: Thread/process number cannot be changed.")).

(** [set_status].  The local [long n_threads] is declared without an
    initialiser, and [updateValue] leaves it alone when the key is absent;
    [n_threads_indet] is the content it then has.  It is read again in the
    second branch.  The local [n_vps] is read only after [updateValue] has
    assigned it, so its initial content does not matter. *)
Definition set_status (n_threads_indet : Z) (d : Dictionary) : K unit :=
  let '(n_threads_updated, n_threads) :=
    updateValue d "local_num_threads" n_threads_indet in
  when n_threads_updated
    (throw_if_locked;;
     force ← read force_singlethreading_;
     when ((n_threads >? 1) && force)
       (emit (message M_WARNING "Network::set_status" no_multithreading);;
        assign_n_threads_ 1);;
     assign_n_threads_ n_threads;;
     reset);;
  let '(n_vps_updated, n_vps) :=
    updateValue d "total_num_virtual_procs" 0 in
  when n_vps_updated
    (throw_if_locked;;
     when (negb (n_vps %c get_num_processes comm =? 0))
       (throw (BadProperty
         "Number of virtual processes (threads*processes) must be an integer multiple of the number of processes. Value unchanged."));;
     assign_n_threads_ (n_vps /c get_num_processes comm);;
     force ← read force_singlethreading_;
     when ((n_threads >? 1) && force)
       (emit (message M_WARNING "Network::set_status" no_multithreading);;
        assign_n_threads_ 1);;
     n ← read n_threads_;
     set_num_threads n;;
     Network_get_network_reset).

Definition get_status (m : VPManager) (d : Dictionary) : Dictionary :=
  let d := def d "local_num_threads" (n_threads_ m) in
  def d "total_num_virtual_procs" (get_num_virtual_processes m).
End Members.

(** ** The reconfiguration guard *)

(** The seven locking conditions, in the order [set_status] tests them. *)
Inductive LockingCondition :=
| NodesExist
| CustomNeuronModels
| CustomSynapseTypes
| DelayExtremaSet
| NetworkSimulated
| ResolutionSet
| ModelDefaultsModified.

Definition locking_conditions : list LockingCondition :=
  [NodesExist; CustomNeuronModels; CustomSynapseTypes; DelayExtremaSet;
   NetworkSimulated; ResolutionSet; ModelDefaultsModified].

Definition holds (net : Network) (resolution_is_default : bool)
    (c : LockingCondition) : bool :=
  match c with
  | NodesExist => size net >? 1
  | CustomNeuronModels => models_size net >? pristine_models_size net
  | CustomSynapseTypes => has_user_prototypes (connection_manager_ net)
  | DelayExtremaSet => get_user_set_delay_extrema (connection_manager_ net)
  | NetworkSimulated => get_simulated net
  | ResolutionSet => negb resolution_is_default
  | ModelDefaultsModified => model_defaults_modified net
  end.

(** The text of the [KernelException] thrown for each condition. *)
Definition lock_message (c : LockingCondition) : string :=
  match c with
  | NodesExist =>
      "Nodes exist: Thread/process number cannot be changed."
  | CustomNeuronModels =>
      "Custom neuron models exist: Thread/process number cannot be changed."
  | CustomSynapseTypes =>
      "Custom synapse types exist: Thread/process number cannot be changed."
  | DelayExtremaSet =>
      "Delay extrema have been set: Thread/process number cannot be changed."
  | NetworkSimulated =>
      "The network has been simulated: Thread/process number cannot be changed."
  | ResolutionSet =>
      "The resolution has been set: Thread/process number cannot be changed."
  | ModelDefaultsModified =>
      "Model defaults have been modified: Thread/process number cannot be changed."
  end.

(** The first locking condition that holds, if any. *)
Definition first_lock (net : Network) (resolution_is_default : bool)
    : option LockingCondition :=
  List.find (holds net resolution_is_default) locking_conditions.

(** The events of one call [set_num_threads( n )]. *)
Definition set_num_threads_events (openmp : bool) (n : Z) : list Event :=
  [nodes_vec_resize n]
  ++ (if openmp then [omp_set_num_threads n] else [])
  ++ [Communicator_set_num_threads n].

Definition warning_event : Event :=
  message M_WARNING "Network::set_status" no_multithreading.

Definition fresh_world : World := {| vpm := VPManager_ctor; trace := [] |}.

(** The state [init] leaves in a build without OpenMP once more than one
    thread had been configured. *)
Definition degraded_world : World :=
  {| vpm := {| force_singlethreading_ := true; n_threads_ := 1 |};
     trace := [] |}.

#[global] Instance LockingCondition_eq_dec : EqDecision LockingCondition.
Proof. solve_decision. Defined.

(** Concrete topologies used in the closed examples below. *)
Definition no_user_connections : ConnectionManager :=
  {| has_user_prototypes := false; get_user_set_delay_extrema := false |}.

Definition pristine_network (n_sim n_rec : Z) : Network :=
  {| size := 1; models_size := 0; pristine_models_size := 0;
     connection_manager_ := no_user_connections;
     get_simulated := false; model_defaults_modified := false;
     n_sim_procs_ := n_sim; n_rec_procs_ := n_rec |}.

Definition populated_network : Network :=
  {| size := 2; models_size := 0; pristine_models_size := 0;
     connection_manager_ := no_user_connections;
     get_simulated := false; model_defaults_modified := false;
     n_sim_procs_ := 3; n_rec_procs_ := 0 |}.

Definition with_threads (n : Z) : VPManager :=
  {| force_singlethreading_ := false; n_threads_ := n |}.

Definition on_rank (n_procs r : Z) : Communicator :=
  {| get_num_processes := n_procs; get_rank := r |}.

(** ** Observations on the trace and sequences of calls *)

(** The text of the [BadProperty] that [set_status] throws. *)
Definition not_a_multiple : string :=
  "Number of virtual processes (threads*processes) must be an integer multiple of the number of processes. Value unchanged.".

Definition told_Communicator (e : Event) : option Z :=
  match e with Communicator_set_num_threads n => Some n | _ => None end.

Definition told_nodes_vec (e : Event) : option Z :=
  match e with nodes_vec_resize n => Some n | _ => None end.

(** The value carried by the last event of the trace that [f] selects. *)
Fixpoint last_told (f : Event -> option Z) (tr : list Event) : option Z :=
  match tr with
  | [] => None
  | e :: tr' =>
      match last_told f tr' with
      | Some n => Some n
      | None => f e
      end
  end.

(** [Communicator] and [nodes_vec_] have last been given the thread count the
    manager holds. *)
Definition in_sync (w : World) : Prop :=
  last_told told_Communicator (trace w) = Some (n_threads_ (vpm w))
  /\ last_told told_nodes_vec (trace w) = Some (n_threads_ (vpm w)).

Inductive Call :=
| call_init
| call_reset
| call_set_num_threads (n_threads : thread)
| call_set_status (net : Network) (resolution_is_default : bool)
    (comm : Communicator) (n_threads_indet : Z) (d : Dictionary).

Definition run_call (openmp : bool) (c : Call) : K unit :=
  match c with
  | call_init => init openmp
  | call_reset => reset openmp
  | call_set_num_threads n => set_num_threads openmp n
  | call_set_status net rd comm u d => set_status openmp net rd comm u d
  end.

(** The calls are made one after the other; a call that throws leaves the
    state as it was when the exception left it. *)
Definition run_calls (openmp : bool) (cs : list Call) (w : World) : World :=
  List.fold_left (fun w c => (run_call openmp c w).2) cs w.

(** ** Arithmetic helpers *)

Lemma cmod_nonneg a b : 0 <= a -> 0 < b -> a %c b = a mod b.
Proof. intros Ha Hb. unfold cmod. apply Z.rem_mod_nonneg; lia. Qed.

Lemma cdiv_nonneg a b : 0 <= a -> 0 < b -> a /c b = a / b.
Proof. intros Ha Hb. unfold cdiv. apply Z.quot_div_nonneg; lia. Qed.

Lemma cdiv_mul t b : 0 <= t -> 0 < b -> (t * b) /c b = t.
Proof.
  intros Ht Hb. rewrite cdiv_nonneg by nia. apply Z.div_mul. lia.
Qed.

Lemma cdiv_mul_add t b r : 0 <= t -> 0 <= r < b -> (t * b + r) /c b = t.
Proof.
  intros Ht Hr. rewrite cdiv_nonneg by nia.
  symmetry. apply (Z.div_unique_pos _ _ _ r); lia.
Qed.

Lemma cmod_range a b : 0 <= a -> 0 < b -> 0 <= a %c b < b.
Proof.
  intros Ha Hb. rewrite cmod_nonneg by assumption. apply Z.mod_pos_bound. lia.
Qed.

Lemma cmod_add_period a b : 0 <= a -> 0 < b -> (a + b) %c b = a %c b.
Proof.
  intros Ha Hb. rewrite !cmod_nonneg by lia.
  replace (a + b) with (a + 1 * b) by lia. apply Z.mod_add. lia.
Qed.

(** ** The partition functions *)

(** C5. For a global id [gid >= 0] and a topology with at least one
    simulating process and one thread, [suggest_vp] returns
    [gid mod (n_sim_procs_ * n_threads_)]; the result lies in
    [0, n_sim_procs_ * n_threads_) and [suggest_vp] is periodic with that
    period. *)
Theorem suggest_vp_mod_range_periodic (net : Network) (m : VPManager) (gid : Z) :
  0 <= gid -> 1 <= n_sim_procs_ net -> 1 <= n_threads_ m ->
  suggest_vp net m gid = gid mod (n_sim_procs_ net * n_threads_ m)
  /\ 0 <= suggest_vp net m gid < n_sim_procs_ net * n_threads_ m
  /\ suggest_vp net m (gid + n_sim_procs_ net * n_threads_ m)
     = suggest_vp net m gid.
Proof.
  intros Hgid Hsim Hthr. unfold suggest_vp.
  assert (Hpos : 0 < n_sim_procs_ net * n_threads_ m) by nia.
  split; [|split].
  - now apply cmod_nonneg.
  - now apply cmod_range.
  - now apply cmod_add_period.
Qed.

Lemma suggest_vp_mod_range_periodic_witness :
  suggest_vp (pristine_network 2 1) (with_threads 3) 7 = 7 mod (2 * 3)
  /\ 0 <= suggest_vp (pristine_network 2 1) (with_threads 3) 7 < 2 * 3
  /\ suggest_vp (pristine_network 2 1) (with_threads 3) (7 + 2 * 3)
     = suggest_vp (pristine_network 2 1) (with_threads 3) 7.
Proof.
  apply (suggest_vp_mod_range_periodic (pristine_network 2 1) (with_threads 3) 7);
    simpl; lia.
Defined.

(** C6. For a global id [gid >= 0] and a topology with at least one recording
    process and one thread, [suggest_rec_vp] returns
    [n_sim_procs_ * n_threads_ + gid mod (n_rec_procs_ * n_threads_)]; the
    result lies in the recording range
    [n_sim_procs_ * n_threads_, n_sim_procs_ * n_threads_ + n_rec_procs_ * n_threads_)
    and is periodic with period [n_rec_procs_ * n_threads_].  With 2
    simulating processes, 1 recording process and 3 threads there are 9
    virtual processes and [suggest_rec_vp 7 = 6 + 7 mod 3 = 7]. *)
Theorem suggest_rec_vp_mod_range_periodic (net : Network) (m : VPManager) (gid : Z) :
  0 <= gid -> 1 <= n_rec_procs_ net -> 1 <= n_threads_ m ->
  let sim_vps := n_sim_procs_ net * n_threads_ m in
  let rec_vps := n_rec_procs_ net * n_threads_ m in
  suggest_rec_vp net m gid = sim_vps + gid mod rec_vps
  /\ sim_vps <= suggest_rec_vp net m gid < sim_vps + rec_vps
  /\ suggest_rec_vp net m (gid + rec_vps) = suggest_rec_vp net m gid
  /\ (n_sim_procs_ net = 2 -> n_rec_procs_ net = 1 -> n_threads_ m = 3 ->
      sim_vps + rec_vps = 9
      /\ suggest_rec_vp net m 7 = 6 + 7 mod 3
      /\ suggest_rec_vp net m 7 = 7).
Proof.
  intros Hgid Hrec Hthr sim_vps rec_vps. unfold suggest_rec_vp.
  fold sim_vps. fold rec_vps.
  assert (Hpos : 0 < rec_vps) by (subst rec_vps; nia).
  pose proof (cmod_range gid rec_vps Hgid Hpos) as Hrange.
  split; [|split; [|split]].
  - rewrite cmod_nonneg by assumption. lia.
  - lia.
  - now rewrite cmod_add_period.
  - intros Es Er Et. subst sim_vps rec_vps. rewrite Es, Er, Et.
    repeat split; reflexivity.
Qed.

Lemma suggest_rec_vp_mod_range_periodic_witness :
  suggest_rec_vp (pristine_network 2 1) (with_threads 3) 7 = 2 * 3 + 7 mod (1 * 3)
  /\ suggest_rec_vp (pristine_network 2 1) (with_threads 3) 7 = 7.
Proof.
  destruct (suggest_rec_vp_mod_range_periodic
              (pristine_network 2 1) (with_threads 3) 7) as (Hv & _ & _ & Hs);
    [lia | simpl; lia | simpl; lia |].
  split; [exact Hv|].
  apply Hs; reflexivity.
Defined.

(** ** The VP/thread mappings *)

(** C2. With at least one simulating process, one recording process and one
    thread, for every thread [t] in [0, n_threads_) and every caller rank in
    [0, n_sim_procs_ + n_rec_procs_), [vp_to_thread (thread_to_vp t) = t]
    when both are evaluated on that rank. *)
Theorem vp_to_thread_thread_to_vp
    (net : Network) (comm : Communicator) (m : VPManager) (t : Z) :
  1 <= n_sim_procs_ net -> 1 <= n_rec_procs_ net -> 1 <= n_threads_ m ->
  0 <= t < n_threads_ m ->
  0 <= get_rank comm < n_sim_procs_ net + n_rec_procs_ net ->
  vp_to_thread net comm m (thread_to_vp net comm m t) = t.
Proof.
  intros Hsim Hrec Hthr Ht Hrank. unfold vp_to_thread, thread_to_vp.
  destruct (Z.geb_spec (get_rank comm) (n_sim_procs_ net)) as [Hr|Hr].
  - (* recording rank: the VP lies in the recording range *)
    destruct (Z.geb_spec
      (t * n_rec_procs_ net + get_rank comm - n_sim_procs_ net
       + n_sim_procs_ net * n_threads_ m)
      (n_sim_procs_ net * n_threads_ m)) as [Hv|Hv]; [|nia].
    replace (t * n_rec_procs_ net + get_rank comm - n_sim_procs_ net
             + n_sim_procs_ net * n_threads_ m
             + n_sim_procs_ net * (1 - n_threads_ m) - get_rank comm)
      with (t * n_rec_procs_ net) by lia.
    apply cdiv_mul; lia.
  - (* simulating rank: the VP lies in the simulating range *)
    destruct (Z.geb_spec (t * n_sim_procs_ net + get_rank comm)
                         (n_sim_procs_ net * n_threads_ m)) as [Hv|Hv]; [nia|].
    apply cdiv_mul_add; lia.
Qed.

Lemma vp_to_thread_thread_to_vp_witness :
  vp_to_thread (pristine_network 2 1) (on_rank 3 2) (with_threads 3)
    (thread_to_vp (pristine_network 2 1) (on_rank 3 2) (with_threads 3) 1) = 1.
Proof.
  apply (vp_to_thread_thread_to_vp
           (pristine_network 2 1) (on_rank 3 2) (with_threads 3) 1);
    simpl; lia.
Defined.

(** C10. For a VP in the simulating range [0, n_sim_procs_ * n_threads_) the
    result of [vp_to_thread] is the same on every caller rank, namely
    [vp / n_sim_procs_]; whenever two ranks disagree on a VP, that VP lies in
    the recording range, and there ranks do disagree. *)
Theorem vp_to_thread_sim_range_rank_independent
    (net : Network) (m : VPManager) (comm1 comm2 : Communicator) (vp : Z) :
  1 <= n_sim_procs_ net ->
  0 <= vp < n_sim_procs_ net * n_threads_ m ->
  vp_to_thread net comm1 m vp = vp_to_thread net comm2 m vp
  /\ vp_to_thread net comm1 m vp = vp / n_sim_procs_ net
  /\ (forall vp' : Z,
        vp_to_thread net comm1 m vp' <> vp_to_thread net comm2 m vp' ->
        n_sim_procs_ net * n_threads_ m <= vp')
  /\ vp_to_thread (pristine_network 2 2) (on_rank 4 2) (with_threads 3) 8
     <> vp_to_thread (pristine_network 2 2) (on_rank 4 3) (with_threads 3) 8.
Proof.
  intros Hsim Hvp. unfold vp_to_thread.
  repeat split.
  - destruct (Z.geb_spec vp (n_sim_procs_ net * n_threads_ m)); [lia|reflexivity].
  - destruct (Z.geb_spec vp (n_sim_procs_ net * n_threads_ m)); [lia|].
    apply cdiv_nonneg; lia.
  - intros vp'.
    destruct (Z.geb_spec vp' (n_sim_procs_ net * n_threads_ m)); [lia|congruence].
  - vm_compute. discriminate.
Qed.

Lemma vp_to_thread_sim_range_rank_independent_witness :
  vp_to_thread (pristine_network 2 1) (on_rank 3 0) (with_threads 3) 5
  = vp_to_thread (pristine_network 2 1) (on_rank 3 2) (with_threads 3) 5
  /\ vp_to_thread (pristine_network 2 1) (on_rank 3 0) (with_threads 3) 5 = 5 / 2.
Proof.
  destruct (vp_to_thread_sim_range_rank_independent
              (pristine_network 2 1) (with_threads 3) (on_rank 3 0) (on_rank 3 2) 5)
    as (Heq & Hdiv & _); [simpl; lia | simpl; lia |].
  split; [exact Heq | exact Hdiv].
Defined.

(** ** Running the members *)

Ltac run :=
  unfold mbind, mret, K_bind, K_ret, when, throw, emit, read,
    assign_n_threads_, assign_force_singlethreading_; cbn.

Lemma mbind_ok {A B} (c : K A) (f : A -> K B) (w w' : World) (a : A) :
  c w = (Ok a, w') -> (c ≫= f) w = f a w'.
Proof. intros Hc. unfold mbind, K_bind. now rewrite Hc. Qed.

Lemma mbind_throw {A B} (c : K A) (f : A -> K B) (w w' : World) (e : Exception) :
  c w = (Throw e, w') -> (c ≫= f) w = (Throw e, w').
Proof. intros Hc. unfold mbind, K_bind. now rewrite Hc. Qed.

Lemma mbind_mret_tt (c : K unit) (w : World) :
  (c ≫= λ _ : (), mret ()) w = c w.
Proof. unfold mbind, K_bind. destruct (c w) as [[[]|e] w']; reflexivity. Qed.

Lemma when_true (c : K unit) : when true c = c.
Proof. reflexivity. Qed.

Lemma when_false (c : K unit) : when false c = mret ().
Proof. reflexivity. Qed.

Lemma set_num_threads_run openmp (n : Z) (w : World) :
  set_num_threads openmp n w
  = (Ok tt,
     {| vpm := {| force_singlethreading_ := force_singlethreading_ (vpm w);
                  n_threads_ := n |};
        trace := trace w ++ set_num_threads_events openmp n |}).
Proof.
  unfold set_num_threads, set_num_threads_events. run.
  destruct openmp; cbn; now rewrite <- !app_assoc.
Qed.

Lemma reset_run openmp (w : World) :
  reset openmp w
  = (Ok tt,
     {| vpm := VPManager_ctor;
        trace := trace w ++ set_num_threads_events openmp 1 |}).
Proof.
  unfold reset. erewrite mbind_ok by reflexivity.
  now rewrite set_num_threads_run.
Qed.

Lemma init_without_openmp_degrades (n : Z) (b : bool) (tr : list Event) :
  1 < n ->
  init false {| vpm := {| force_singlethreading_ := b; n_threads_ := n |};
                trace := tr |}
  = (Ok tt,
     {| vpm := {| force_singlethreading_ := true; n_threads_ := 1 |};
        trace := tr ++ [message M_ERROR "Network::reset" no_multithreading]
                    ++ set_num_threads_events false 1 |}).
Proof.
  intros Hn. unfold init, set_num_threads. run.
  destruct (Z.gtb_spec n 1); [|lia]. cbn.
  now rewrite <- !app_assoc.
Qed.

Lemma init_with_openmp_keeps (w : World) :
  init true w
  = (Ok tt,
     {| vpm := vpm w;
        trace := trace w ++ set_num_threads_events true (n_threads_ (vpm w)) |}).
Proof.
  unfold init, get_num_threads. run. rewrite set_num_threads_run.
  destruct w as [[f n] tr]. reflexivity.
Qed.

Lemma throw_if_locked_run net rd (w : World) :
  throw_if_locked net rd w
  = match first_lock net rd with
    | Some c => (Throw (KernelException (lock_message c)), w)
    | None => (Ok tt, w)
    end.
Proof.
  unfold throw_if_locked, first_lock, locking_conditions. cbn [List.find holds].
  run.
  destruct (size net >? 1); [reflexivity|].
  destruct (models_size net >? pristine_models_size net); [reflexivity|].
  destruct (has_user_prototypes (connection_manager_ net)); [reflexivity|].
  destruct (get_user_set_delay_extrema (connection_manager_ net)); [reflexivity|].
  destruct (get_simulated net); [reflexivity|].
  destruct rd; [|reflexivity].
  destruct (model_defaults_modified net); reflexivity.
Qed.

Lemma first_lock_holds net rd c :
  first_lock net rd = Some c -> holds net rd c = true.
Proof. intros H. now apply List.find_some in H. Qed.

Lemma first_lock_none net rd c :
  first_lock net rd = None -> holds net rd c = false.
Proof.
  intros H. apply (List.find_none _ _ H).
  destruct c; cbn; tauto.
Qed.

Lemma first_lock_some net rd c :
  holds net rd c = true -> exists c', first_lock net rd = Some c'.
Proof.
  intros Hc. destruct (first_lock net rd) eqn:E; [eauto|].
  rewrite (first_lock_none _ _ c E) in Hc. discriminate.
Qed.

Lemma lock_message_inj c1 c2 : lock_message c1 = lock_message c2 -> c1 = c2.
Proof. destruct c1, c2; cbn; intros H; first [reflexivity | discriminate H]. Qed.

Lemma no_lock_first_lock net rd :
  (forall c, holds net rd c = false) -> first_lock net rd = None.
Proof.
  intros Hno. destruct (first_lock net rd) as [c|] eqn:E; [|reflexivity].
  apply first_lock_holds in E. rewrite Hno in E. discriminate.
Qed.

(** *** [set_status], branch by branch *)

Section SetStatus.
Variable openmp : bool.
Variable net : Network.
Variable rd : bool.
Variable comm : Communicator.

Lemma set_status_locked_run (u n : Z) (d : Dictionary) (w : World) c :
  d !! "local_num_threads" = Some n ->
  first_lock net rd = Some c ->
  set_status openmp net rd comm u d w
  = (Throw (KernelException (lock_message c)), w).
Proof.
  intros Hd Hc. unfold set_status, updateValue. rewrite Hd.
  rewrite when_true.
  apply mbind_throw, mbind_throw. rewrite throw_if_locked_run. now rewrite Hc.
Qed.

Lemma set_status_local_only_run (u n : Z) (d : Dictionary) (w : World) :
  d !! "local_num_threads" = Some n ->
  d !! "total_num_virtual_procs" = None ->
  first_lock net rd = None ->
  set_status openmp net rd comm u d w
  = (Ok tt,
     {| vpm := VPManager_ctor;
        trace := trace w
                 ++ (if (n >? 1) && force_singlethreading_ (vpm w)
                     then [warning_event] else [])
                 ++ set_num_threads_events openmp 1 |}).
Proof.
  intros Hd Hv Hno. unfold set_status, updateValue. rewrite Hd, Hv.
  rewrite when_true, when_false, mbind_mret_tt.
  erewrite mbind_ok by (rewrite throw_if_locked_run, Hno; reflexivity).
  erewrite mbind_ok by reflexivity.
  destruct ((n >? 1) && force_singlethreading_ (vpm w)); run;
    rewrite reset_run; cbn; [now rewrite <- app_assoc | reflexivity].
Qed.

Lemma set_status_total_only_locked_run (u n_vps : Z) (d : Dictionary) (w : World) c :
  d !! "local_num_threads" = None ->
  d !! "total_num_virtual_procs" = Some n_vps ->
  first_lock net rd = Some c ->
  set_status openmp net rd comm u d w
  = (Throw (KernelException (lock_message c)), w).
Proof.
  intros Hd Hv Hc. unfold set_status, updateValue. rewrite Hd, Hv.
  rewrite when_true, when_false.
  erewrite mbind_ok by reflexivity.
  apply mbind_throw. rewrite throw_if_locked_run. now rewrite Hc.
Qed.

Lemma set_status_total_only_indivisible_run (u n_vps : Z) (d : Dictionary) (w : World) :
  d !! "local_num_threads" = None ->
  d !! "total_num_virtual_procs" = Some n_vps ->
  first_lock net rd = None ->
  n_vps %c get_num_processes comm <> 0 ->
  set_status openmp net rd comm u d w
  = (Throw (BadProperty
       "Number of virtual processes (threads*processes) must be an integer multiple of the number of processes. Value unchanged."),
     w).
Proof.
  intros Hd Hv Hno Hrem. unfold set_status, updateValue. rewrite Hd, Hv.
  rewrite when_true, when_false.
  erewrite mbind_ok by reflexivity.
  erewrite mbind_ok by (rewrite throw_if_locked_run, Hno; reflexivity).
  apply mbind_throw.
  destruct (Z.eqb_spec (n_vps %c get_num_processes comm) 0); [contradiction|].
  reflexivity.
Qed.

Lemma set_status_total_only_run (u n_vps : Z) (d : Dictionary) (w : World) :
  d !! "local_num_threads" = None ->
  d !! "total_num_virtual_procs" = Some n_vps ->
  first_lock net rd = None ->
  n_vps %c get_num_processes comm = 0 ->
  let clamp := (u >? 1) && force_singlethreading_ (vpm w) in
  let n := if clamp then 1 else n_vps /c get_num_processes comm in
  set_status openmp net rd comm u d w
  = (Ok tt,
     {| vpm := {| force_singlethreading_ := force_singlethreading_ (vpm w);
                  n_threads_ := n |};
        trace := trace w
                 ++ (if clamp then [warning_event] else [])
                 ++ set_num_threads_events openmp n
                 ++ [Network_reset] |}).
Proof.
  intros Hd Hv Hno Hrem clamp n. unfold set_status, updateValue.
  rewrite Hd, Hv.
  rewrite when_true, when_false.
  erewrite mbind_ok by reflexivity.
  erewrite mbind_ok by (rewrite throw_if_locked_run, Hno; reflexivity).
  rewrite Hrem. cbn [Z.eqb negb]. rewrite when_false.
  erewrite mbind_ok by reflexivity.
  erewrite mbind_ok by reflexivity.
  erewrite mbind_ok by reflexivity.
  subst n clamp. cbn [vpm force_singlethreading_ n_threads_].
  destruct ((u >? 1) && force_singlethreading_ (vpm w)); run;
    rewrite set_num_threads_run; unfold Network_get_network_reset, emit;
    destruct openmp; cbn; rewrite <- ?app_assoc; reflexivity.
Qed.
End SetStatus.

Lemma get_status_local_num_threads comm (m : VPManager) (d : Dictionary) :
  get_status comm m d !! "local_num_threads" = Some (n_threads_ m).
Proof.
  unfold get_status, def.
  rewrite lookup_insert_ne by discriminate. apply lookup_insert_eq.
Qed.

Lemma get_status_total_num_virtual_procs comm (m : VPManager) (d : Dictionary) :
  get_status comm m d !! "total_num_virtual_procs"
  = Some (n_threads_ m * get_num_processes comm).
Proof. unfold get_status, def, get_num_virtual_processes. apply lookup_insert_eq. Qed.

(** ** Claims about the reconfiguration guard *)

(** C3. For every [set_status] request carrying [local_num_threads], if one of
    the seven locking conditions holds, the call throws a [KernelException]
    whose message is the one of a condition that holds (the first in the
    order of the tests, hence the given one when it is the only one), the
    messages of distinct conditions differ, and the manager's fields and the
    trace are what they were before the call. *)
Theorem set_status_local_num_threads_locked
    (openmp : bool) (net : Network) (rd : bool) (comm : Communicator)
    (u n : Z) (d : Dictionary) (w : World) (c : LockingCondition) :
  d !! "local_num_threads" = Some n ->
  holds net rd c = true ->
  exists c' : LockingCondition,
    holds net rd c' = true
    /\ first_lock net rd = Some c'
    /\ ((forall c'', c'' <> c -> holds net rd c'' = false) -> c' = c)
    /\ set_status openmp net rd comm u d w
       = (Throw (KernelException (lock_message c')), w)
    /\ (forall c'', lock_message c'' = lock_message c' -> c'' = c').
Proof.
  intros Hd Hc. destruct (first_lock_some _ _ _ Hc) as [c' Hc'].
  exists c'. pose proof (first_lock_holds _ _ _ Hc') as Hh.
  repeat split; try assumption.
  - intros Honly. destruct (decide (c' = c)) as [|Hne]; [assumption|].
    rewrite (Honly c' Hne) in Hh. discriminate.
  - now apply set_status_locked_run with (n := n).
  - intros c''. apply lock_message_inj.
Qed.

Lemma set_status_local_num_threads_locked_witness :
  exists c' : LockingCondition,
    holds populated_network true c' = true
    /\ first_lock populated_network true = Some c'
    /\ ((forall c'', c'' <> NodesExist -> holds populated_network true c'' = false)
        -> c' = NodesExist)
    /\ set_status true populated_network true (on_rank 3 0) 0
         {[ "local_num_threads" := 4 ]} fresh_world
       = (Throw (KernelException (lock_message c')), fresh_world)
    /\ (forall c'', lock_message c'' = lock_message c' -> c'' = c').
Proof.
  apply (set_status_local_num_threads_locked true populated_network true
           (on_rank 3 0) 0 4 {[ "local_num_threads" := 4 ]} fresh_world NodesExist).
  - vm_compute. reflexivity.
  - vm_compute. reflexivity.
Defined.

(** C7. With the degraded flag set and no locking condition holding, a
    [set_status] request for [local_num_threads = 8] returns normally, leaves
    the thread count at 1 (which is also what [get_status] then reports) and
    records exactly one message, of severity [M_WARNING]. *)
Theorem set_status_degraded_local_num_threads_8
    (openmp : bool) (net : Network) (rd : bool) (comm : Communicator)
    (u : Z) (d : Dictionary) (w : World) :
  (forall c, holds net rd c = false) ->
  force_singlethreading_ (vpm w) = true ->
  d !! "local_num_threads" = Some 8 ->
  d !! "total_num_virtual_procs" = None ->
  exists w' : World,
    set_status openmp net rd comm u d w = (Ok tt, w')
    /\ n_threads_ (vpm w') = 1
    /\ get_status comm (vpm w') ∅ !! "local_num_threads" = Some 1
    /\ trace w'
       = trace w
         ++ message M_WARNING "Network::set_status" no_multithreading
            :: set_num_threads_events openmp 1.
Proof.
  intros Hno Hf Hd Hv. eexists. split.
  - apply set_status_local_only_run with (n := 8); auto using no_lock_first_lock.
  - rewrite Hf. cbn. split; [reflexivity|]. split; [|reflexivity].
    apply get_status_local_num_threads.
Qed.

Lemma set_status_degraded_local_num_threads_8_witness :
  exists w' : World,
    set_status false (pristine_network 1 0) true (on_rank 1 0) 0
      {[ "local_num_threads" := 8 ]} degraded_world = (Ok tt, w')
    /\ n_threads_ (vpm w') = 1
    /\ get_status (on_rank 1 0) (vpm w') ∅ !! "local_num_threads" = Some 1
    /\ trace w'
       = trace degraded_world
         ++ message M_WARNING "Network::set_status" no_multithreading
            :: set_num_threads_events false 1.
Proof.
  apply (set_status_degraded_local_num_threads_8 false (pristine_network 1 0) true
           (on_rank 1 0) 0 {[ "local_num_threads" := 8 ]} degraded_world).
  - intros c. destruct c; reflexivity.
  - reflexivity.
  - vm_compute. reflexivity.
  - vm_compute. reflexivity.
Defined.

(** C4, as the code has it. For every [set_status] request that carries
    [total_num_virtual_procs] and no [local_num_threads], made while no
    locking condition holds, whose value is not a multiple of the number of
    processes, the call throws [BadProperty] and the manager's fields and the
    trace are what they were before the call. *)
Theorem set_status_total_indivisible_rejected
    (openmp : bool) (net : Network) (rd : bool) (comm : Communicator)
    (u n_vps : Z) (d : Dictionary) (w : World) :
  d !! "local_num_threads" = None ->
  d !! "total_num_virtual_procs" = Some n_vps ->
  (forall c, holds net rd c = false) ->
  1 <= get_num_processes comm ->
  ~ (get_num_processes comm | n_vps) ->
  exists msg : string,
    set_status openmp net rd comm u d w = (Throw (BadProperty msg), w).
Proof.
  intros Hd Hv Hno Hp Hdiv. eexists.
  apply set_status_total_only_indivisible_run with (n_vps := n_vps);
    auto using no_lock_first_lock.
  unfold cmod. intros Hrem. apply Hdiv. apply Z.rem_divide; [lia | assumption].
Qed.

Lemma set_status_total_indivisible_rejected_witness :
  exists msg : string,
    set_status true (pristine_network 3 0) true (on_rank 3 0) 0
      {[ "total_num_virtual_procs" := 10 ]} fresh_world
    = (Throw (BadProperty msg), fresh_world).
Proof.
  apply (set_status_total_indivisible_rejected true (pristine_network 3 0) true
           (on_rank 3 0) 0 10 {[ "total_num_virtual_procs" := 10 ]} fresh_world).
  - vm_compute. reflexivity.
  - vm_compute. reflexivity.
  - intros c. destruct c; reflexivity.
  - simpl. lia.
  - simpl. intros [k Hk]. lia.
Defined.

(** C4 as stated fails in two ways.  With 3 processes and a requested value of
    10: (a) when nodes exist, the call throws the guard's [KernelException],
    not [BadProperty]; (b) when the request also carries [local_num_threads],
    [BadProperty] is thrown after the first branch has run, and the thread
    count has gone from 4 to 1. *)
Lemma set_status_total_indivisible_counterexample :
  let request : Dictionary := {[ "total_num_virtual_procs" := 10 ]} in
  let both : Dictionary := <[ "local_num_threads" := 2 ]> request in
  let four_threads := {| vpm := with_threads 4; trace := [] |} in
  let a := set_status true populated_network true (on_rank 3 0) 0
             request fresh_world in
  let b := set_status true (pristine_network 3 0) true (on_rank 3 0) 0
             both four_threads in
  request !! "total_num_virtual_procs" = Some 10
  /\ both !! "total_num_virtual_procs" = Some 10
  /\ ~ (3 | 10)
  /\ a.1 = Throw (KernelException (lock_message NodesExist))
  /\ (exists msg, b.1 = Throw (BadProperty msg))
  /\ n_threads_ (vpm four_threads) = 4
  /\ n_threads_ (vpm b.2) = 1.
Proof.
  cbv zeta. repeat split; try (vm_compute; reflexivity).
  - intros [k Hk]. lia.
  - eexists. vm_compute. reflexivity.
Qed.

(** C1, on the code. With no locking condition holding, a [set_status]
    request for [local_num_threads = 4] returns normally, but the unqualified
    call [reset()] that ends the branch is [VPManager::reset], which sets the
    thread count back to 1: the following [get_status] reports
    [local_num_threads = 1] and [total_num_virtual_procs] equal to the number
    of processes (here 2), not 4 and 8. *)
Theorem set_status_local_num_threads_4_reports_1 :
  let net := pristine_network 2 0 in
  let comm := on_rank 2 0 in
  let r := set_status true net true comm 0
             {[ "local_num_threads" := 4 ]} fresh_world in
  let status := get_status comm (vpm r.2) ∅ in
  (forall c, holds net true c = false)
  /\ r.1 = Ok tt
  /\ status !! "local_num_threads" = Some 1
  /\ status !! "total_num_virtual_procs" = Some 2
  /\ trace r.2 = set_num_threads_events true 1.
Proof.
  cbv zeta. split; [intros c; destruct c; reflexivity|].
  rewrite get_status_local_num_threads, get_status_total_num_virtual_procs.
  repeat split; vm_compute; reflexivity.
Qed.

(** C8, on the code. The clamp of the [total_num_virtual_procs] branch tests
    the local [n_threads] (the value read for [local_num_threads], or
    whatever the uninitialised local holds), not the derived thread count.
    With 2 processes, the degraded flag set and a requested total of 8, the
    derived count 4 is committed and no warning is recorded: both when the
    request carries only [total_num_virtual_procs] and the local holds 0, and
    when it also carries [local_num_threads = 1]. *)
Theorem set_status_total_skips_degraded_clamp :
  let net := pristine_network 2 0 in
  let comm := on_rank 2 0 in
  let request : Dictionary := {[ "total_num_virtual_procs" := 8 ]} in
  let both : Dictionary := <[ "local_num_threads" := 1 ]> request in
  let r := set_status false net true comm 0 request degraded_world in
  let r' := set_status false net true comm 0 both degraded_world in
  force_singlethreading_ (vpm degraded_world) = true
  /\ (forall c, holds net true c = false)
  /\ r = (Ok tt,
          {| vpm := {| force_singlethreading_ := true; n_threads_ := 4 |};
             trace := set_num_threads_events false 4 ++ [Network_reset] |})
  /\ r'.1 = Ok tt
  /\ n_threads_ (vpm r'.2) = 4
  /\ trace r'.2
     = set_num_threads_events false 1
       ++ set_num_threads_events false 4 ++ [Network_reset].
Proof.
  cbv zeta. split; [reflexivity|].
  split; [intros c; destruct c; reflexivity|].
  repeat split; vm_compute; reflexivity.
Qed.

(** C9, on the code. An accepted [set_status] request for
    [local_num_threads] ends in [VPManager::reset], so a degraded flag that
    was set before the call is cleared by it. *)
Theorem set_status_local_clears_degraded_flag :
  let net := pristine_network 1 0 in
  let r := set_status false net true (on_rank 1 0) 0
             {[ "local_num_threads" := 2 ]} degraded_world in
  force_singlethreading_ (vpm degraded_world) = true
  /\ (forall c, holds net true c = false)
  /\ r.1 = Ok tt
  /\ force_singlethreading_ (vpm r.2) = false.
Proof.
  cbv zeta. split; [reflexivity|].
  split; [intros c; destruct c; reflexivity|].
  split; vm_compute; reflexivity.
Qed.

(** The other paths leave the flag alone: an accepted
    [total_num_virtual_procs] request keeps it, and [init] never clears it. *)
Lemma set_status_total_keeps_degraded_flag
    (openmp : bool) (net : Network) (rd : bool) (comm : Communicator)
    (u n_vps : Z) (d : Dictionary) (w : World) :
  d !! "local_num_threads" = None ->
  d !! "total_num_virtual_procs" = Some n_vps ->
  first_lock net rd = None ->
  n_vps %c get_num_processes comm = 0 ->
  force_singlethreading_ (vpm (set_status openmp net rd comm u d w).2)
  = force_singlethreading_ (vpm w).
Proof.
  intros Hd Hv Hno Hrem.
  now rewrite (set_status_total_only_run openmp net rd comm u n_vps d w Hd Hv Hno Hrem).
Qed.

Lemma init_keeps_degraded_flag (openmp : bool) (w : World) :
  force_singlethreading_ (vpm w) = true ->
  force_singlethreading_ (vpm (init openmp w).2) = true.
Proof.
  intros Hf. destruct openmp.
  - now rewrite init_with_openmp_keeps.
  - destruct w as [[f n] tr]. cbn in Hf. subst f.
    unfold init, set_num_threads, get_num_threads. run.
    destruct (n >? 1); reflexivity.
Qed.

(** ** Further properties of the VP/thread mappings *)

Lemma cmod_mul_split a b c :
  0 <= a -> 0 < b -> 0 < c ->
  a %c (b * c) = a mod b + b * ((a / b) mod c).
Proof.
  intros Ha Hb Hc. rewrite cmod_nonneg by nia. apply Z.rem_mul_r; lia.
Qed.

(** X1. The VP that [thread_to_vp] gives a thread lies in the range of the
    caller's pool: the simulating range on a simulating rank, the recording
    range on a recording rank. *)
Theorem thread_to_vp_range
    (net : Network) (comm : Communicator) (m : VPManager) (t : Z) :
  1 <= n_sim_procs_ net -> 0 <= n_rec_procs_ net ->
  0 <= t < n_threads_ m ->
  0 <= get_rank comm < n_sim_procs_ net + n_rec_procs_ net ->
  let vp := thread_to_vp net comm m t in
  let sim_vps := n_sim_procs_ net * n_threads_ m in
  let rec_vps := n_rec_procs_ net * n_threads_ m in
  (get_rank comm < n_sim_procs_ net -> 0 <= vp < sim_vps)
  /\ (n_sim_procs_ net <= get_rank comm -> sim_vps <= vp < sim_vps + rec_vps).
Proof.
  intros Hsim Hrec Ht Hrank. cbv zeta. unfold thread_to_vp.
  destruct (Z.geb_spec (get_rank comm) (n_sim_procs_ net)) as [Hr|Hr];
    split; intros Hcase; try lia; nia.
Qed.

Lemma thread_to_vp_range_witness :
  (2 < 2 -> 0 <= thread_to_vp (pristine_network 2 1) (on_rank 3 2) (with_threads 3) 1 < 2 * 3)
  /\ (2 <= 2 ->
      2 * 3 <= thread_to_vp (pristine_network 2 1) (on_rank 3 2) (with_threads 3) 1
      < 2 * 3 + 1 * 3).
Proof.
  apply (thread_to_vp_range (pristine_network 2 1) (on_rank 3 2) (with_threads 3) 1);
    simpl; lia.
Defined.

(** X2. Two (thread, rank) pairs that [thread_to_vp] sends to the same VP are the
    same pair: no VP belongs to two ranks or to two threads of one rank. *)
Theorem thread_to_vp_injective
    (net : Network) (m : VPManager) (comm1 comm2 : Communicator) (t1 t2 : Z) :
  1 <= n_sim_procs_ net -> 0 <= n_rec_procs_ net ->
  0 <= t1 < n_threads_ m -> 0 <= t2 < n_threads_ m ->
  0 <= get_rank comm1 < n_sim_procs_ net + n_rec_procs_ net ->
  0 <= get_rank comm2 < n_sim_procs_ net + n_rec_procs_ net ->
  thread_to_vp net comm1 m t1 = thread_to_vp net comm2 m t2 ->
  t1 = t2 /\ get_rank comm1 = get_rank comm2.
Proof.
  intros Hsim Hrec Ht1 Ht2 Hr1 Hr2. unfold thread_to_vp.
  destruct (Z.geb_spec (get_rank comm1) (n_sim_procs_ net)) as [H1|H1];
    destruct (Z.geb_spec (get_rank comm2) (n_sim_procs_ net)) as [H2|H2];
    intros Heq.
  - assert (t1 = t2) by nia. subst. lia.
  - exfalso. nia.
  - exfalso. nia.
  - assert (t1 = t2) by nia. subst. lia.
Qed.

Lemma thread_to_vp_injective_witness :
  1 = 1 /\ get_rank (on_rank 3 2) = get_rank (on_rank 3 2).
Proof.
  apply (thread_to_vp_injective (pristine_network 2 1) (with_threads 3)
           (on_rank 3 2) (on_rank 3 2) 1 1); simpl; lia.
Defined.

(** X3. On a simulating rank the round trip needs no recording process at all:
    [vp_to_thread (thread_to_vp t) = t] whatever [n_rec_procs_] is, zero
    included. *)
Theorem vp_to_thread_thread_to_vp_sim_rank
    (net : Network) (comm : Communicator) (m : VPManager) (t : Z) :
  1 <= n_sim_procs_ net ->
  0 <= t < n_threads_ m ->
  0 <= get_rank comm < n_sim_procs_ net ->
  vp_to_thread net comm m (thread_to_vp net comm m t) = t.
Proof.
  intros Hsim Ht Hrank. unfold vp_to_thread, thread_to_vp.
  destruct (Z.geb_spec (get_rank comm) (n_sim_procs_ net)) as [Hr|Hr]; [lia|].
  destruct (Z.geb_spec (t * n_sim_procs_ net + get_rank comm)
                       (n_sim_procs_ net * n_threads_ m)) as [Hv|Hv]; [nia|].
  apply cdiv_mul_add; lia.
Qed.

Lemma vp_to_thread_thread_to_vp_sim_rank_witness :
  vp_to_thread (pristine_network 2 0) (on_rank 2 1) (with_threads 3)
    (thread_to_vp (pristine_network 2 0) (on_rank 2 1) (with_threads 3) 2) = 2.
Proof.
  apply (vp_to_thread_thread_to_vp_sim_rank
           (pristine_network 2 0) (on_rank 2 1) (with_threads 3) 2); simpl; lia.
Defined.

(** X4. For a VP of the simulating range and a simulating caller,
    [thread_to_vp (vp_to_thread vp)] gives back [vp] exactly on the rank
    [vp mod n_sim_procs_]; on every other simulating rank it gives a
    different VP, without any error. *)
Theorem thread_to_vp_vp_to_thread_sim_range
    (net : Network) (comm : Communicator) (m : VPManager) (vp : Z) :
  1 <= n_sim_procs_ net ->
  0 <= vp < n_sim_procs_ net * n_threads_ m ->
  0 <= get_rank comm < n_sim_procs_ net ->
  thread_to_vp net comm m (vp_to_thread net comm m vp) = vp
  <-> get_rank comm = vp mod n_sim_procs_ net.
Proof.
  intros Hsim Hvp Hrank. unfold vp_to_thread, thread_to_vp.
  destruct (Z.geb_spec vp (n_sim_procs_ net * n_threads_ m)) as [Hv|Hv]; [lia|].
  destruct (Z.geb_spec (get_rank comm) (n_sim_procs_ net)) as [Hr|Hr]; [lia|].
  rewrite cdiv_nonneg by lia.
  pose proof (Z.div_mod vp (n_sim_procs_ net) ltac:(lia)) as Hdm.
  lia.
Qed.

Lemma thread_to_vp_vp_to_thread_sim_range_witness :
  thread_to_vp (pristine_network 2 1) (on_rank 3 1) (with_threads 3)
    (vp_to_thread (pristine_network 2 1) (on_rank 3 1) (with_threads 3) 5) = 5
  <-> get_rank (on_rank 3 1) = 5 mod 2.
Proof.
  apply (thread_to_vp_vp_to_thread_sim_range
           (pristine_network 2 1) (on_rank 3 1) (with_threads 3) 5); simpl; lia.
Defined.

(** X5. For a VP of the recording range and a recording caller whose offset in
    the recording pool does not exceed the VP's offset in the recording range
    (so that [vp_to_thread] divides a non-negative number),
    [thread_to_vp (vp_to_thread vp)] gives back [vp] exactly on the rank
    [n_sim_procs_ + (vp - n_sim_procs_ * n_threads_) mod n_rec_procs_]. *)
Theorem thread_to_vp_vp_to_thread_rec_range
    (net : Network) (comm : Communicator) (m : VPManager) (vp : Z) :
  1 <= n_rec_procs_ net ->
  n_sim_procs_ net * n_threads_ m <= vp ->
  n_sim_procs_ net <= get_rank comm < n_sim_procs_ net + n_rec_procs_ net ->
  get_rank comm - n_sim_procs_ net <= vp - n_sim_procs_ net * n_threads_ m ->
  thread_to_vp net comm m (vp_to_thread net comm m vp) = vp
  <-> get_rank comm
      = n_sim_procs_ net
        + (vp - n_sim_procs_ net * n_threads_ m) mod n_rec_procs_ net.
Proof.
  intros Hrec Hvp Hrank Hnum. unfold vp_to_thread, thread_to_vp.
  destruct (Z.geb_spec vp (n_sim_procs_ net * n_threads_ m)) as [Hv|Hv]; [|lia].
  destruct (Z.geb_spec (get_rank comm) (n_sim_procs_ net)) as [Hr|Hr]; [|lia].
  set (S := n_sim_procs_ net) in *. set (T := n_threads_ m) in *.
  set (R := n_rec_procs_ net) in *.
  set (loc := vp - S * T). set (rho := get_rank comm - S).
  replace (vp + S * (1 - T) - get_rank comm) with (loc - rho) by (subst loc rho; lia).
  assert (Hloc : 0 <= loc) by (subst loc; lia).
  assert (Hrho : 0 <= rho < R) by (subst rho; lia).
  assert (Hge : rho <= loc) by (subst loc rho; lia).
  pose proof (Z.mod_pos_bound loc R ltac:(lia)) as Hmod.
  pose proof (Z.div_mod loc R ltac:(lia)) as Hdm.
  rewrite cdiv_nonneg by lia.
  pose proof (Z.div_mod (loc - rho) R ltac:(lia)) as Hdm'.
  pose proof (Z.mod_pos_bound (loc - rho) R ltac:(lia)) as Hmod'.
  split; intros H.
  - assert (Hr' : rho = loc mod R).
    { apply (Z.mod_unique_pos loc R ((loc - rho) / R) rho); [lia|].
      subst loc rho. lia. }
    subst rho. lia.
  - assert (Hr' : rho = loc mod R) by (subst rho; lia).
    assert (Hq : (loc - rho) / R = loc / R).
    { symmetry. apply (Z.div_unique_pos (loc - rho) R (loc / R) 0); lia. }
    rewrite Hq. subst loc rho. lia.
Qed.

Lemma thread_to_vp_vp_to_thread_rec_range_witness :
  thread_to_vp (pristine_network 2 2) (on_rank 4 3) (with_threads 3)
    (vp_to_thread (pristine_network 2 2) (on_rank 4 3) (with_threads 3) 9) = 9
  <-> get_rank (on_rank 4 3) = 2 + (9 - 2 * 3) mod 2.
Proof.
  apply (thread_to_vp_vp_to_thread_rec_range
           (pristine_network 2 2) (on_rank 4 3) (with_threads 3) 9); simpl; lia.
Defined.

(** ** Further properties of the partition functions *)

(** X6. The two partition functions never produce the same VP: every VP of
    [suggest_vp] lies below every VP of [suggest_rec_vp]. *)
Theorem suggest_vp_below_suggest_rec_vp
    (net : Network) (m : VPManager) (gid gid' : Z) :
  0 <= gid -> 0 <= gid' ->
  1 <= n_sim_procs_ net -> 1 <= n_rec_procs_ net -> 1 <= n_threads_ m ->
  suggest_vp net m gid < suggest_rec_vp net m gid'.
Proof.
  intros Hg Hg' Hsim Hrec Hthr. unfold suggest_vp, suggest_rec_vp.
  pose proof (cmod_range gid (n_sim_procs_ net * n_threads_ m) Hg ltac:(nia)).
  pose proof (cmod_range gid' (n_rec_procs_ net * n_threads_ m) Hg' ltac:(nia)).
  lia.
Qed.

Lemma suggest_vp_below_suggest_rec_vp_witness :
  suggest_vp (pristine_network 2 1) (with_threads 3) 11
  < suggest_rec_vp (pristine_network 2 1) (with_threads 3) 0.
Proof.
  apply (suggest_vp_below_suggest_rec_vp (pristine_network 2 1) (with_threads 3) 11 0);
    simpl; lia.
Defined.

(** X7. Round robin over the simulating pool: the VP [suggest_vp gid] is congruent
    to [gid] modulo [n_sim_procs_]; on every rank [vp_to_thread] maps it to
    thread [(gid / n_sim_procs_) mod n_threads_]; and on the rank
    [gid mod n_sim_procs_] that thread's VP is [suggest_vp gid]. *)
Theorem suggest_vp_rank_and_thread
    (net : Network) (comm : Communicator) (m : VPManager) (gid : Z) :
  0 <= gid -> 1 <= n_sim_procs_ net -> 1 <= n_threads_ m ->
  let vp := suggest_vp net m gid in
  let t := (gid / n_sim_procs_ net) mod n_threads_ m in
  vp mod n_sim_procs_ net = gid mod n_sim_procs_ net
  /\ vp_to_thread net comm m vp = t
  /\ (get_rank comm = gid mod n_sim_procs_ net -> thread_to_vp net comm m t = vp).
Proof.
  intros Hg Hsim Hthr. cbv zeta.
  unfold suggest_vp, vp_to_thread, thread_to_vp.
  rewrite cmod_mul_split by lia.
  set (S := n_sim_procs_ net) in *. set (T := n_threads_ m) in *.
  pose proof (Z.mod_pos_bound gid S ltac:(lia)) as Hr.
  pose proof (Z.mod_pos_bound (gid / S) T ltac:(lia)) as Ht.
  split; [|split].
  - symmetry. apply (Z.mod_unique_pos _ S ((gid / S) mod T)); lia.
  - destruct (Z.geb_spec (gid mod S + S * ((gid / S) mod T)) (S * T)); [nia|].
    replace (gid mod S + S * ((gid / S) mod T))
      with ((gid / S) mod T * S + gid mod S) by lia.
    apply cdiv_mul_add; lia.
  - intros Hrank. rewrite Hrank.
    destruct (Z.geb_spec (gid mod S) S); lia.
Qed.

Lemma suggest_vp_rank_and_thread_witness :
  suggest_vp (pristine_network 2 1) (with_threads 3) 11 mod 2 = 11 mod 2
  /\ vp_to_thread (pristine_network 2 1) (on_rank 3 1) (with_threads 3)
       (suggest_vp (pristine_network 2 1) (with_threads 3) 11)
     = (11 / 2) mod 3
  /\ (get_rank (on_rank 3 1) = 11 mod 2 ->
      thread_to_vp (pristine_network 2 1) (on_rank 3 1) (with_threads 3)
        ((11 / 2) mod 3)
      = suggest_vp (pristine_network 2 1) (with_threads 3) 11).
Proof.
  apply (suggest_vp_rank_and_thread
           (pristine_network 2 1) (on_rank 3 1) (with_threads 3) 11); simpl; lia.
Defined.

(** X8. Round robin over the recording pool: on the recording rank
    [n_sim_procs_ + gid mod n_rec_procs_], [vp_to_thread] maps
    [suggest_rec_vp gid] to thread [(gid / n_rec_procs_) mod n_threads_], and
    [thread_to_vp] maps that thread back to [suggest_rec_vp gid]. *)
Theorem suggest_rec_vp_rank_and_thread
    (net : Network) (comm : Communicator) (m : VPManager) (gid : Z) :
  0 <= gid -> 1 <= n_rec_procs_ net -> 1 <= n_threads_ m ->
  get_rank comm = n_sim_procs_ net + gid mod n_rec_procs_ net ->
  let t := (gid / n_rec_procs_ net) mod n_threads_ m in
  vp_to_thread net comm m (suggest_rec_vp net m gid) = t
  /\ thread_to_vp net comm m t = suggest_rec_vp net m gid.
Proof.
  intros Hg Hrec Hthr Hrank. cbv zeta.
  unfold suggest_rec_vp, vp_to_thread, thread_to_vp.
  rewrite cmod_mul_split by lia. rewrite Hrank.
  set (S := n_sim_procs_ net) in *. set (T := n_threads_ m) in *.
  set (R := n_rec_procs_ net) in *.
  pose proof (Z.mod_pos_bound gid R ltac:(lia)) as Hr.
  pose proof (Z.mod_pos_bound (gid / R) T ltac:(lia)) as Ht.
  split.
  - destruct (Z.geb_spec (gid mod R + R * ((gid / R) mod T) + S * T) (S * T)); [|nia].
    replace (gid mod R + R * ((gid / R) mod T) + S * T + S * (1 - T)
             - (S + gid mod R))
      with ((gid / R) mod T * R) by lia.
    apply cdiv_mul; lia.
  - destruct (Z.geb_spec (S + gid mod R) S); lia.
Qed.

Lemma suggest_rec_vp_rank_and_thread_witness :
  vp_to_thread (pristine_network 2 2) (on_rank 4 3) (with_threads 3)
    (suggest_rec_vp (pristine_network 2 2) (with_threads 3) 9)
  = (9 / 2) mod 3
  /\ thread_to_vp (pristine_network 2 2) (on_rank 4 3) (with_threads 3)
       ((9 / 2) mod 3)
     = suggest_rec_vp (pristine_network 2 2) (with_threads 3) 9.
Proof.
  apply (suggest_rec_vp_rank_and_thread
           (pristine_network 2 2) (on_rank 4 3) (with_threads 3) 9);
    first [simpl; lia | vm_compute; reflexivity].
Defined.

(** ** [set_status] on every request *)

Section SetStatusRun.
Variable openmp : bool.
Variable net : Network.
Variable rd : bool.
Variable comm : Communicator.

Lemma local_branch_run (n : Z) (w : World) :
  first_lock net rd = None ->
  (throw_if_locked net rd;;
   force ← read force_singlethreading_;
   when ((n >? 1) && force)
     (emit (message M_WARNING "Network::set_status" no_multithreading);;
      assign_n_threads_ 1);;
   assign_n_threads_ n;;
   reset openmp) w
  = (Ok tt,
     {| vpm := VPManager_ctor;
        trace := trace w
                 ++ (if (n >? 1) && force_singlethreading_ (vpm w)
                     then [warning_event] else [])
                 ++ set_num_threads_events openmp 1 |}).
Proof.
  intros Hno.
  erewrite mbind_ok by (rewrite throw_if_locked_run, Hno; reflexivity).
  erewrite mbind_ok by reflexivity.
  destruct ((n >? 1) && force_singlethreading_ (vpm w)); run;
    rewrite reset_run; cbn; [now rewrite <- app_assoc | reflexivity].
Qed.

Lemma total_branch_run (n n_vps : Z) (w : World) :
  first_lock net rd = None ->
  (throw_if_locked net rd;;
   when (negb (n_vps %c get_num_processes comm =? 0))
     (throw (BadProperty not_a_multiple));;
   assign_n_threads_ (n_vps /c get_num_processes comm);;
   force ← read force_singlethreading_;
   when ((n >? 1) && force)
     (emit (message M_WARNING "Network::set_status" no_multithreading);;
      assign_n_threads_ 1);;
   n' ← read n_threads_;
   set_num_threads openmp n';;
   Network_get_network_reset) w
  = if n_vps %c get_num_processes comm =? 0
    then
      let clamp := (n >? 1) && force_singlethreading_ (vpm w) in
      let n' := if clamp then 1 else n_vps /c get_num_processes comm in
      (Ok tt,
       {| vpm := {| force_singlethreading_ := force_singlethreading_ (vpm w);
                    n_threads_ := n' |};
          trace := trace w
                   ++ (if clamp then [warning_event] else [])
                   ++ set_num_threads_events openmp n'
                   ++ [Network_reset] |})
    else (Throw (BadProperty not_a_multiple), w).
Proof.
  intros Hno.
  erewrite mbind_ok by (rewrite throw_if_locked_run, Hno; reflexivity).
  destruct (n_vps %c get_num_processes comm =? 0); cbn [negb].
  - rewrite when_false.
    erewrite mbind_ok by reflexivity.
    erewrite mbind_ok by reflexivity.
    erewrite mbind_ok by reflexivity.
    cbv zeta. cbn [vpm force_singlethreading_ n_threads_].
    destruct ((n >? 1) && force_singlethreading_ (vpm w)); run;
      rewrite set_num_threads_run; unfold Network_get_network_reset, emit;
      destruct openmp; cbn; rewrite <- ?app_assoc; reflexivity.
  - rewrite when_true. reflexivity.
Qed.

(** The outcome of [set_status] on every request and state. *)
Lemma set_status_run (u : Z) (d : Dictionary) (w : World) :
  set_status openmp net rd comm u d w
  = match d !! "local_num_threads", d !! "total_num_virtual_procs" with
    | None, None => (Ok tt, w)
    | Some n, o =>
        match first_lock net rd with
        | Some c => (Throw (KernelException (lock_message c)), w)
        | None =>
            let w1 :=
              {| vpm := VPManager_ctor;
                 trace := trace w
                          ++ (if (n >? 1) && force_singlethreading_ (vpm w)
                              then [warning_event] else [])
                          ++ set_num_threads_events openmp 1 |} in
            match o with
            | None => (Ok tt, w1)
            | Some n_vps =>
                if n_vps %c get_num_processes comm =? 0
                then
                  (Ok tt,
                   {| vpm := {| force_singlethreading_ := false;
                                n_threads_ := n_vps /c get_num_processes comm |};
                      trace := trace w1
                               ++ set_num_threads_events openmp
                                    (n_vps /c get_num_processes comm)
                               ++ [Network_reset] |})
                else (Throw (BadProperty not_a_multiple), w1)
            end
        end
    | None, Some n_vps =>
        match first_lock net rd with
        | Some c => (Throw (KernelException (lock_message c)), w)
        | None =>
            if n_vps %c get_num_processes comm =? 0
            then
              let clamp := (u >? 1) && force_singlethreading_ (vpm w) in
              let n := if clamp then 1 else n_vps /c get_num_processes comm in
              (Ok tt,
               {| vpm := {| force_singlethreading_ := force_singlethreading_ (vpm w);
                            n_threads_ := n |};
                  trace := trace w
                           ++ (if clamp then [warning_event] else [])
                           ++ set_num_threads_events openmp n
                           ++ [Network_reset] |})
            else (Throw (BadProperty not_a_multiple), w)
        end
    end.
Proof.
  destruct (d !! "local_num_threads") as [n|] eqn:Hd;
    destruct (d !! "total_num_virtual_procs") as [n_vps|] eqn:Hv;
    destruct (first_lock net rd) as [c|] eqn:Hl;
    try (now apply set_status_locked_run with (n := n));
    try (now apply set_status_total_only_locked_run with (n_vps := n_vps)).
  - unfold set_status, updateValue. rewrite Hd, Hv. rewrite !when_true.
    erewrite mbind_ok by (apply local_branch_run; exact Hl).
    rewrite (total_branch_run n n_vps _ Hl). cbv zeta.
    cbn [vpm force_singlethreading_ VPManager_ctor trace].
    rewrite andb_false_r.
    destruct (n_vps %c get_num_processes comm =? 0); [|reflexivity].
    cbn [app]. reflexivity.
  - now apply set_status_local_only_run.
  - unfold set_status, updateValue. rewrite Hd, Hv.
    rewrite when_true, when_false.
    erewrite mbind_ok by reflexivity.
    apply (total_branch_run u n_vps w Hl).
  - unfold set_status, updateValue. rewrite Hd, Hv.
    rewrite !when_false. reflexivity.
  - unfold set_status, updateValue. rewrite Hd, Hv.
    rewrite !when_false. reflexivity.
Qed.
End SetStatusRun.

Ltac set_status_cases u d w :=
  cbv zeta; rewrite ?(set_status_run _ _ _ _ u d w);
  destruct (d !! "local_num_threads") as [?n|] eqn:?Hd;
  destruct (d !! "total_num_virtual_procs") as [?n_vps|] eqn:?Hv;
  try match goal with
      | |- context [first_lock ?a ?b] =>
          destruct (first_lock a b) as [?c|] eqn:?Hl
      end;
  try match goal with
      | |- context [?a %c ?b =? 0] => destruct (a %c b =? 0) eqn:?Hrem
      end;
  cbv zeta; cbn [fst snd vpm trace force_singlethreading_ n_threads_ VPManager_ctor].

Lemma cmod_eqb_divide (a b : Z) :
  b <> 0 -> (a %c b =? 0) = true <-> (b | a).
Proof.
  intros Hb. rewrite Z.eqb_eq. unfold cmod. now apply Z.rem_divide.
Qed.

Lemma cdiv_exact (a b : Z) : b <> 0 -> (b | a) -> a /c b = a / b /\ a / b * b = a.
Proof.
  intros Hb [k ->]. unfold cdiv.
  rewrite Z.quot_mul, Z.div_mul by assumption. split; reflexivity.
Qed.

Lemma first_lock_not_unlocked net rd c :
  first_lock net rd = Some c -> ~ forall c', holds net rd c' = false.
Proof.
  intros Hl Hno. apply first_lock_holds in Hl. rewrite Hno in Hl. discriminate.
Qed.

(** ** Further properties of the reconfiguration guard *)

(** X9. A request that carries neither [local_num_threads] nor
    [total_num_virtual_procs] is a no-op: it returns normally and changes
    nothing, also when locking conditions hold. *)
Theorem set_status_without_keys_is_noop
    (openmp : bool) (net : Network) (rd : bool) (comm : Communicator)
    (u : Z) (d : Dictionary) (w : World) :
  d !! "local_num_threads" = None ->
  d !! "total_num_virtual_procs" = None ->
  set_status openmp net rd comm u d w = (Ok tt, w).
Proof.
  intros Hd Hv. rewrite set_status_run, Hd, Hv. reflexivity.
Qed.

Lemma set_status_without_keys_is_noop_witness :
  holds populated_network true NodesExist = true
  /\ set_status true populated_network true (on_rank 3 0) 0
       {[ "resolution" := 1 ]} fresh_world
     = (Ok tt, fresh_world).
Proof.
  split; [reflexivity|].
  apply (set_status_without_keys_is_noop true populated_network true
           (on_rank 3 0) 0 {[ "resolution" := 1 ]} fresh_world);
    vm_compute; reflexivity.
Defined.

(** X10. [set_status] throws a [KernelException] exactly when the request carries
    one of the two keys and a locking condition holds; the exception then
    carries the message of the first condition that holds, and the state and
    the trace are as before the call.  In particular the locking tests win
    over the divisibility test. *)
Theorem set_status_KernelException_iff
    (openmp : bool) (net : Network) (rd : bool) (comm : Communicator)
    (u : Z) (d : Dictionary) (w : World) :
  let r := set_status openmp net rd comm u d w in
  ((exists msg, r.1 = Throw (KernelException msg))
   <-> (is_Some (d !! "local_num_threads")
        \/ is_Some (d !! "total_num_virtual_procs"))
       /\ exists c, holds net rd c = true)
  /\ (forall msg, r.1 = Throw (KernelException msg) ->
      r.2 = w /\ exists c, first_lock net rd = Some c /\ msg = lock_message c).
Proof.
  assert (Hnone : first_lock net rd = None -> ~ exists c, holds net rd c = true).
  { intros Hl [c Hc]. rewrite (first_lock_none _ _ c Hl) in Hc. discriminate. }
  set_status_cases u d w; (split; [split|]).
  all: try (intros [msg Hm]; discriminate Hm).
  all: try (intros msg Hm; discriminate Hm).
  all: try (intros _; eexists; reflexivity).
  all: try (intros [_ Hex]; exfalso; now apply Hnone).
  all: try (intros _; split;
            [first [left; eexists; reflexivity | right; eexists; reflexivity]
            |eexists; now apply first_lock_holds with (1 := Hl)]).
  all: try (intros msg Hm; injection Hm as <-; split; [reflexivity|]; eauto).
  all: try (intros [[[x Hx]|[x Hx]] _]; discriminate Hx).
Qed.

Lemma set_status_KernelException_iff_witness :
  exists msg,
    (set_status true populated_network true (on_rank 3 0) 0
       {[ "total_num_virtual_procs" := 10 ]} fresh_world).1
    = Throw (KernelException msg).
Proof.
  apply (proj1 (set_status_KernelException_iff true populated_network true
                  (on_rank 3 0) 0 {[ "total_num_virtual_procs" := 10 ]}
                  fresh_world)).
  split.
  - right. exists 10. vm_compute. reflexivity.
  - exists NodesExist. reflexivity.
Defined.

(** X11. With a non-zero number of processes, [set_status] throws [BadProperty]
    exactly when the request carries a [total_num_virtual_procs] that is not
    a multiple of the number of processes and no locking condition holds. *)
Theorem set_status_BadProperty_iff
    (openmp : bool) (net : Network) (rd : bool) (comm : Communicator)
    (u : Z) (d : Dictionary) (w : World) :
  get_num_processes comm <> 0 ->
  (exists msg, (set_status openmp net rd comm u d w).1 = Throw (BadProperty msg))
  <-> exists n_vps,
        d !! "total_num_virtual_procs" = Some n_vps
        /\ (forall c, holds net rd c = false)
        /\ ~ (get_num_processes comm | n_vps).
Proof.
  intros Hp.
  set_status_cases u d w; split.
  all: try (intros [msg Hm]; discriminate Hm).
  all: try (intros (x & Hx & _); discriminate Hx).
  all: try (intros (x & _ & Hno & _); exfalso; now apply (first_lock_not_unlocked _ _ _ Hl)).
  all: try (intros (x & Hx & _ & Hdiv); injection Hx as <-;
            exfalso; apply Hdiv; now apply cmod_eqb_divide).
  all: try (intros _; eexists; reflexivity).
  all: intros _; eexists; split; [reflexivity|];
    split; [intros c'; now apply first_lock_none|];
    intros Hdiv; apply cmod_eqb_divide in Hdiv; [congruence | assumption].
Qed.

Lemma set_status_BadProperty_iff_witness :
  exists msg,
    (set_status true (pristine_network 3 0) true (on_rank 3 0) 0
       {[ "total_num_virtual_procs" := 10 ]} fresh_world).1
    = Throw (BadProperty msg).
Proof.
  apply (proj2 (set_status_BadProperty_iff true (pristine_network 3 0) true
                  (on_rank 3 0) 0 {[ "total_num_virtual_procs" := 10 ]}
                  fresh_world ltac:(simpl; lia))).
  exists 10. split; [vm_compute; reflexivity|].
  split; [intros c; destruct c; reflexivity|].
  simpl. intros [k Hk]. lia.
Defined.

(** X12. Round trip through the status dictionary: after an accepted request that
    carries only [total_num_virtual_procs], made while the manager is not
    degraded, [get_status] reports the requested total and
    [local_num_threads] equal to the total divided by the number of
    processes. *)
Theorem set_status_total_get_status_round_trip
    (openmp : bool) (net : Network) (rd : bool) (comm : Communicator)
    (u n_vps : Z) (d d' : Dictionary) (w : World) :
  d !! "local_num_threads" = None ->
  d !! "total_num_virtual_procs" = Some n_vps ->
  (forall c, holds net rd c = false) ->
  1 <= get_num_processes comm ->
  0 <= n_vps ->
  (get_num_processes comm | n_vps) ->
  force_singlethreading_ (vpm w) = false ->
  let r := set_status openmp net rd comm u d w in
  let status := get_status comm (vpm r.2) d' in
  r.1 = Ok tt
  /\ status !! "total_num_virtual_procs" = Some n_vps
  /\ status !! "local_num_threads" = Some (n_vps / get_num_processes comm).
Proof.
  intros Hd Hv Hno Hp1 Hnn Hdiv Hf. cbv zeta.
  assert (Hp : get_num_processes comm <> 0) by lia.
  rewrite get_status_total_num_virtual_procs, get_status_local_num_threads.
  rewrite set_status_run, Hd, Hv, (no_lock_first_lock _ _ Hno).
  rewrite (proj2 (cmod_eqb_divide _ _ Hp) Hdiv). cbv zeta.
  rewrite Hf, andb_false_r. cbn [fst snd vpm n_threads_].
  destruct (cdiv_exact _ _ Hp Hdiv) as [-> ->]. repeat split.
Qed.

Lemma set_status_total_get_status_round_trip_witness :
  let r := set_status true (pristine_network 3 0) true (on_rank 3 0) 0
             {[ "total_num_virtual_procs" := 12 ]} fresh_world in
  let status := get_status (on_rank 3 0) (vpm r.2) ∅ in
  r.1 = Ok tt
  /\ status !! "total_num_virtual_procs" = Some 12
  /\ status !! "local_num_threads" = Some (12 / 3).
Proof.
  apply (set_status_total_get_status_round_trip true (pristine_network 3 0) true
           (on_rank 3 0) 0 12 {[ "total_num_virtual_procs" := 12 ]} ∅ fresh_world).
  - vm_compute. reflexivity.
  - vm_compute. reflexivity.
  - intros c. destruct c; reflexivity.
  - simpl. lia.
  - lia.
  - exists 4. reflexivity.
  - reflexivity.
Defined.

(** X13. [set_status] does not check that the requested count is positive: for an
    accepted request that carries only a non-negative
    [total_num_virtual_procs], made while the manager is not degraded, the
    committed thread count is at least 1 exactly when the requested total is
    at least the number of processes.  A total of 0 is accepted and commits a
    thread count of 0. *)
Theorem set_status_total_thread_count_positive_iff
    (openmp : bool) (net : Network) (rd : bool) (comm : Communicator)
    (u n_vps : Z) (d : Dictionary) (w : World) :
  d !! "local_num_threads" = None ->
  d !! "total_num_virtual_procs" = Some n_vps ->
  (forall c, holds net rd c = false) ->
  1 <= get_num_processes comm ->
  0 <= n_vps ->
  (get_num_processes comm | n_vps) ->
  force_singlethreading_ (vpm w) = false ->
  let r := set_status openmp net rd comm u d w in
  r.1 = Ok tt
  /\ (1 <= n_threads_ (vpm r.2) <-> get_num_processes comm <= n_vps)
  /\ (n_vps = 0 -> n_threads_ (vpm r.2) = 0).
Proof.
  intros Hd Hv Hno Hp Hnn Hdiv Hf. cbv zeta.
  assert (Hp' : get_num_processes comm <> 0) by lia.
  rewrite set_status_run, Hd, Hv, (no_lock_first_lock _ _ Hno).
  rewrite (proj2 (cmod_eqb_divide _ _ Hp') Hdiv). cbv zeta.
  rewrite Hf, andb_false_r. cbn [fst snd vpm n_threads_].
  split; [reflexivity|].
  destruct (cdiv_exact _ _ Hp' Hdiv) as [-> Hk]. split; nia.
Qed.

Lemma set_status_total_thread_count_positive_iff_witness :
  let r := set_status true (pristine_network 3 0) true (on_rank 3 0) 0
             {[ "total_num_virtual_procs" := 0 ]} fresh_world in
  r.1 = Ok tt
  /\ (1 <= n_threads_ (vpm r.2) <-> 3 <= 0)
  /\ (0 = 0 -> n_threads_ (vpm r.2) = 0).
Proof.
  apply (set_status_total_thread_count_positive_iff true (pristine_network 3 0)
           true (on_rank 3 0) 0 0 {[ "total_num_virtual_procs" := 0 ]} fresh_world).
  - vm_compute. reflexivity.
  - vm_compute. reflexivity.
  - intros c. destruct c; reflexivity.
  - simpl. lia.
  - lia.
  - exists 0. reflexivity.
  - reflexivity.
Defined.

(** X14. When an accepted request carries both keys, [total_num_virtual_procs]
    decides the thread count: the manager ends with the total divided by the
    number of processes, whatever [local_num_threads] was, and with the
    degraded flag cleared. *)
Theorem set_status_both_keys_total_wins
    (openmp : bool) (net : Network) (rd : bool) (comm : Communicator)
    (u n n_vps : Z) (d : Dictionary) (w : World) :
  d !! "local_num_threads" = Some n ->
  d !! "total_num_virtual_procs" = Some n_vps ->
  (forall c, holds net rd c = false) ->
  1 <= get_num_processes comm ->
  0 <= n_vps ->
  (get_num_processes comm | n_vps) ->
  let r := set_status openmp net rd comm u d w in
  r.1 = Ok tt
  /\ vpm r.2 = {| force_singlethreading_ := false;
                  n_threads_ := n_vps / get_num_processes comm |}.
Proof.
  intros Hd Hv Hno Hp1 Hnn Hdiv. cbv zeta.
  assert (Hp : get_num_processes comm <> 0) by lia.
  rewrite set_status_run, Hd, Hv, (no_lock_first_lock _ _ Hno).
  rewrite (proj2 (cmod_eqb_divide _ _ Hp) Hdiv). cbv zeta. cbn [fst snd vpm].
  destruct (cdiv_exact _ _ Hp Hdiv) as [-> _]. split; reflexivity.
Qed.

Lemma set_status_both_keys_total_wins_witness :
  let r := set_status false (pristine_network 2 0) true (on_rank 2 0) 0
             (<[ "local_num_threads" := 7 ]> {[ "total_num_virtual_procs" := 8 ]})
             degraded_world in
  r.1 = Ok tt
  /\ vpm r.2 = {| force_singlethreading_ := false; n_threads_ := 8 / 2 |}.
Proof.
  apply (set_status_both_keys_total_wins false (pristine_network 2 0) true
           (on_rank 2 0) 0 7 8
           (<[ "local_num_threads" := 7 ]> {[ "total_num_virtual_procs" := 8 ]})
           degraded_world).
  - vm_compute. reflexivity.
  - vm_compute. reflexivity.
  - intros c. destruct c; reflexivity.
  - simpl. lia.
  - lia.
  - exists 4. reflexivity.
Defined.

(** X15. When a request carries both keys and the total is not a multiple of the
    number of processes, [BadProperty] is thrown after the
    [local_num_threads] branch has run: the manager is left in its
    constructed state (one thread, not degraded) and the collaborators have
    been told of one thread, although the message ends in "Value
    unchanged." *)
Theorem set_status_both_keys_BadProperty_after_commit
    (openmp : bool) (net : Network) (rd : bool) (comm : Communicator)
    (u n n_vps : Z) (d : Dictionary) (w : World) :
  d !! "local_num_threads" = Some n ->
  d !! "total_num_virtual_procs" = Some n_vps ->
  (forall c, holds net rd c = false) ->
  get_num_processes comm <> 0 ->
  ~ (get_num_processes comm | n_vps) ->
  let r := set_status openmp net rd comm u d w in
  r.1 = Throw (BadProperty not_a_multiple)
  /\ vpm r.2 = VPManager_ctor
  /\ trace r.2
     = trace w
       ++ (if (n >? 1) && force_singlethreading_ (vpm w)
           then [message M_WARNING "Network::set_status" no_multithreading]
           else [])
       ++ set_num_threads_events openmp 1.
Proof.
  intros Hd Hv Hno Hp Hdiv. cbv zeta.
  rewrite set_status_run, Hd, Hv, (no_lock_first_lock _ _ Hno).
  destruct (n_vps %c get_num_processes comm =? 0) eqn:Hrem.
  - exfalso. apply Hdiv. now apply cmod_eqb_divide.
  - repeat split.
Qed.

Lemma set_status_both_keys_BadProperty_after_commit_witness :
  let w := {| vpm := with_threads 4; trace := [] |} in
  let r := set_status true (pristine_network 3 0) true (on_rank 3 0) 0
             (<[ "local_num_threads" := 2 ]> {[ "total_num_virtual_procs" := 10 ]})
             w in
  r.1 = Throw (BadProperty not_a_multiple)
  /\ vpm r.2 = VPManager_ctor
  /\ trace r.2
     = trace w
       ++ (if (2 >? 1) && force_singlethreading_ (vpm w)
           then [message M_WARNING "Network::set_status" no_multithreading]
           else [])
       ++ set_num_threads_events true 1.
Proof.
  apply (set_status_both_keys_BadProperty_after_commit true (pristine_network 3 0)
           true (on_rank 3 0) 0 2 10
           (<[ "local_num_threads" := 2 ]> {[ "total_num_virtual_procs" := 10 ]})
           {| vpm := with_threads 4; trace := [] |}).
  - vm_compute. reflexivity.
  - vm_compute. reflexivity.
  - intros c. destruct c; reflexivity.
  - simpl. lia.
  - simpl. intros [k Hk]. lia.
Defined.

(** X16. Feeding the dictionary written by [get_status] back to [set_status] is
    accepted when no locking condition holds and keeps the thread count; the
    degraded flag is cleared on the way. *)
Theorem set_status_of_get_status_keeps_thread_count
    (openmp : bool) (net : Network) (rd : bool) (comm : Communicator)
    (u : Z) (d : Dictionary) (w : World) :
  (forall c, holds net rd c = false) ->
  1 <= get_num_processes comm ->
  0 <= n_threads_ (vpm w) ->
  let r := set_status openmp net rd comm u (get_status comm (vpm w) d) w in
  r.1 = Ok tt
  /\ vpm r.2 = {| force_singlethreading_ := false;
                  n_threads_ := n_threads_ (vpm w) |}.
Proof.
  intros Hno Hp1 Hnn. cbv zeta.
  assert (Hp : get_num_processes comm <> 0) by lia.
  rewrite set_status_run.
  rewrite get_status_local_num_threads, get_status_total_num_virtual_procs.
  rewrite (no_lock_first_lock _ _ Hno).
  unfold cmod, cdiv. rewrite Z.rem_mul, Z.quot_mul by assumption.
  split; reflexivity.
Qed.

Lemma set_status_of_get_status_keeps_thread_count_witness :
  let w := {| vpm := with_threads 4; trace := [] |} in
  let r := set_status true (pristine_network 3 0) true (on_rank 3 0) 0
             (get_status (on_rank 3 0) (vpm w) ∅) w in
  r.1 = Ok tt
  /\ vpm r.2 = {| force_singlethreading_ := false; n_threads_ := n_threads_ (vpm w) |}.
Proof.
  apply (set_status_of_get_status_keeps_thread_count true (pristine_network 3 0)
           true (on_rank 3 0) 0 ∅ {| vpm := with_threads 4; trace := [] |}).
  - intros c. destruct c; reflexivity.
  - simpl. lia.
  - simpl. lia.
Defined.

(** X17. [get_status] writes its two keys and nothing else: every other entry of
    the dictionary is as before, stale values of the two keys are
    overwritten, and the reported total is the reported thread count times
    the number of processes. *)
Theorem get_status_writes_two_keys
    (comm : Communicator) (m m' : VPManager) (d : Dictionary) :
  (forall k : string,
     k <> "local_num_threads" -> k <> "total_num_virtual_procs" ->
     get_status comm m d !! k = d !! k)
  /\ get_status comm m (get_status comm m' d) = get_status comm m d
  /\ (forall n v : Z,
        get_status comm m d !! "local_num_threads" = Some n ->
        get_status comm m d !! "total_num_virtual_procs" = Some v ->
        v = n * get_num_processes comm).
Proof.
  split; [|split].
  - intros k Hk1 Hk2. unfold get_status, def.
    rewrite !lookup_insert_ne by congruence. reflexivity.
  - apply map_eq. intros k. unfold get_status, def, get_num_virtual_processes.
    destruct (decide (k = "total_num_virtual_procs")) as [->|Hk2].
    { rewrite !lookup_insert_eq. reflexivity. }
    rewrite !(lookup_insert_ne _ "total_num_virtual_procs") by congruence.
    destruct (decide (k = "local_num_threads")) as [->|Hk1].
    { rewrite !lookup_insert_eq. reflexivity. }
    rewrite !lookup_insert_ne by congruence. reflexivity.
  - intros n v. rewrite get_status_local_num_threads,
      get_status_total_num_virtual_procs.
    intros [= <-] [= <-]. reflexivity.
Qed.

Lemma get_status_writes_two_keys_witness :
  get_status (on_rank 3 0) (with_threads 4) {[ "resolution" := 1 ]} !! "resolution"
  = ({[ "resolution" := 1 ]} : Dictionary) !! "resolution".
Proof.
  apply (proj1 (get_status_writes_two_keys (on_rank 3 0) (with_threads 4)
                  (with_threads 4) {[ "resolution" := 1 ]}));
    discriminate.
Defined.

(** ** [init], and what holds after any sequence of calls *)

Lemma init_run (openmp : bool) (w : World) :
  let n := n_threads_ (vpm w) in
  let degrade := negb openmp && (n >? 1) in
  init openmp w
  = (Ok tt,
     {| vpm := if degrade
               then {| force_singlethreading_ := true; n_threads_ := 1 |}
               else vpm w;
        trace := trace w
                 ++ (if degrade
                     then [message M_ERROR "Network::reset" no_multithreading]
                     else [])
                 ++ set_num_threads_events openmp (if degrade then 1 else n) |}).
Proof.
  cbv zeta. destruct openmp.
  - rewrite init_with_openmp_keeps. reflexivity.
  - destruct w as [[f n] tr]. cbn [vpm n_threads_ trace negb andb].
    destruct (Z.gtb_spec n 1) as [Hn|Hn].
    + now apply init_without_openmp_degrades.
    + unfold init, get_num_threads. run.
      destruct (Z.gtb_spec n 1) as [Hn'|_]; [lia|]. cbn.
      rewrite set_num_threads_run. reflexivity.
Qed.

(** X18. [init] never throws.  In a build with OpenMP it leaves the manager's
    fields alone; in a build without OpenMP it leaves a thread count of at
    most 1 (the minimum of the old count and 1), and sets the degraded flag
    and records an [M_ERROR] message exactly when the old count exceeded 1.
    Calling [init] again changes no field. *)
Theorem init_clamps_without_openmp (openmp : bool) (w : World) :
  0 <= n_threads_ (vpm w) ->
  let r := init openmp w in
  let n := n_threads_ (vpm w) in
  r.1 = Ok tt
  /\ vpm r.2
     = (if openmp then vpm w
        else {| force_singlethreading_ := force_singlethreading_ (vpm w) || (n >? 1);
                n_threads_ := Z.min n 1 |})
  /\ trace r.2
     = trace w
       ++ (if negb openmp && (n >? 1)
           then [message M_ERROR "Network::reset" no_multithreading]
           else [])
       ++ set_num_threads_events openmp (n_threads_ (vpm r.2))
  /\ vpm (init openmp r.2).2 = vpm r.2.
Proof.
  intros _. cbv zeta. rewrite !init_run. cbv zeta. cbn [fst snd vpm trace].
  destruct w as [[f n] tr]. cbn [vpm n_threads_ force_singlethreading_ trace].
  destruct openmp; cbn [negb andb].
  - repeat split.
  - destruct (Z.gtb_spec n 1) as [Hn|Hn]; cbn [n_threads_].
    + rewrite orb_true_r, Z.min_r by lia. repeat split.
    + rewrite orb_false_r, Z.min_l by lia.
      destruct (Z.gtb_spec n 1) as [Hn'|_]; [lia|]. repeat split.
Qed.

Lemma init_clamps_without_openmp_witness :
  let w := {| vpm := with_threads 4; trace := [] |} in
  let r := init false w in
  r.1 = Ok tt
  /\ vpm r.2 = {| force_singlethreading_ := true; n_threads_ := 1 |}
  /\ trace r.2
     = [message M_ERROR "Network::reset" no_multithreading]
       ++ set_num_threads_events false 1
  /\ vpm (init false r.2).2 = vpm r.2.
Proof.
  apply (init_clamps_without_openmp false {| vpm := with_threads 4; trace := [] |}).
  simpl. lia.
Defined.

Lemma last_told_app (f : Event -> option Z) (a b : list Event) :
  last_told f (a ++ b)
  = match last_told f b with
    | Some n => Some n
    | None => last_told f a
    end.
Proof.
  induction a as [|e a IH]; cbn.
  - now destruct (last_told f b).
  - rewrite IH. now destruct (last_told f b).
Qed.

Lemma in_sync_events (b : bool) (n : Z) (tr : list Event) (openmp : bool) :
  in_sync {| vpm := {| force_singlethreading_ := b; n_threads_ := n |};
             trace := tr ++ set_num_threads_events openmp n |}.
Proof.
  split; cbn [trace vpm n_threads_]; rewrite last_told_app;
    destruct openmp; reflexivity.
Qed.

Lemma in_sync_events_reset (b : bool) (n : Z) (tr : list Event) (openmp : bool) :
  in_sync {| vpm := {| force_singlethreading_ := b; n_threads_ := n |};
             trace := (tr ++ set_num_threads_events openmp n) ++ [Network_reset] |}.
Proof.
  split; cbn [trace vpm n_threads_]; rewrite !last_told_app;
    destruct openmp; reflexivity.
Qed.

Lemma set_status_keeps_in_sync
    (openmp : bool) (net : Network) (rd : bool) (comm : Communicator)
    (u : Z) (d : Dictionary) (w : World) :
  in_sync w -> in_sync (set_status openmp net rd comm u d w).2.
Proof.
  intros Hw. set_status_cases u d w; try exact Hw;
    rewrite ?app_assoc;
    first [apply in_sync_events | apply in_sync_events_reset].
Qed.

Lemma run_call_establishes_in_sync (openmp : bool) (c : Call) (w : World) :
  (forall net rd comm u d, c <> call_set_status net rd comm u d) ->
  in_sync (run_call openmp c w).2.
Proof.
  intros Hc. destruct c as [| |n|net rd comm u d]; cbn [run_call].
  - rewrite init_run. cbv zeta. cbn [snd].
    destruct (negb openmp && (n_threads_ (vpm w) >? 1));
      rewrite ?app_assoc; [apply in_sync_events|].
    destruct w as [[f n] tr]. apply in_sync_events.
  - rewrite reset_run. apply in_sync_events.
  - rewrite set_num_threads_run. apply in_sync_events.
  - now contradiction (Hc net rd comm u d).
Qed.

Lemma run_call_keeps_in_sync (openmp : bool) (c : Call) (w : World) :
  in_sync w -> in_sync (run_call openmp c w).2.
Proof.
  intros Hw. destruct c as [| |n|net rd comm u d];
    try (apply run_call_establishes_in_sync; discriminate).
  now apply set_status_keeps_in_sync.
Qed.

(** X19. [init], [reset] and [set_num_threads] leave [Communicator] and
    [nodes_vec_] in step with the manager from any state: the last thread
    count each of them was given is the one the manager holds. *)
Theorem init_reset_set_num_threads_in_sync
    (openmp : bool) (n : Z) (w : World) :
  in_sync (init openmp w).2
  /\ in_sync (reset openmp w).2
  /\ in_sync (set_num_threads openmp n w).2.
Proof.
  split; [|split].
  - apply (run_call_establishes_in_sync openmp call_init). discriminate.
  - apply (run_call_establishes_in_sync openmp call_reset). discriminate.
  - apply (run_call_establishes_in_sync openmp (call_set_num_threads n)). discriminate.
Qed.

(** X20. Once [Communicator] and [nodes_vec_] are in step with the manager, they
    stay so after every sequence of [init], [reset], [set_num_threads] and
    [set_status] calls, whatever the requests and whether or not they are
    rejected. *)
Theorem run_calls_keeps_in_sync (openmp : bool) (cs : list Call) (w : World) :
  in_sync w -> in_sync (run_calls openmp cs w).
Proof.
  revert w. induction cs as [|c cs IH]; intros w Hw; [exact Hw|].
  cbn [run_calls List.fold_left]. apply IH. now apply run_call_keeps_in_sync.
Qed.

Lemma run_calls_keeps_in_sync_witness :
  in_sync
    (run_calls true
       [call_set_status (pristine_network 3 0) true (on_rank 3 0) 0
          {[ "total_num_virtual_procs" := 12 ]};
        call_set_status (pristine_network 3 0) true (on_rank 3 0) 0
          (<[ "local_num_threads" := 2 ]> {[ "total_num_virtual_procs" := 10 ]})]
       (reset true fresh_world).2).
Proof.
  apply (run_calls_keeps_in_sync true).
  split; reflexivity.
Defined.

Lemma run_call_sets_flag (openmp : bool) (c : Call) (w : World) :
  force_singlethreading_ (vpm (run_call openmp c w).2) = true ->
  force_singlethreading_ (vpm w) = true \/ (openmp = false /\ c = call_init).
Proof.
  destruct c as [| |n|net rd comm u d]; cbn [run_call].
  - rewrite init_run. cbv zeta. cbn [snd vpm].
    destruct openmp; cbn [negb andb]; [now left|].
    intros _. right. split; reflexivity.
  - rewrite reset_run. discriminate.
  - rewrite set_num_threads_run. now left.
  - set_status_cases u d w; first [discriminate | now left].
Qed.

(** X21. The degraded flag is set by nothing but [init] in a build without OpenMP:
    if it is set after a sequence of calls, it was set before, or the build
    lacks OpenMP and the sequence contains a call of [init].  In a build with
    OpenMP the manager never becomes degraded. *)
Theorem run_calls_flag_set_only_by_init
    (openmp : bool) (cs : list Call) (w : World) :
  force_singlethreading_ (vpm (run_calls openmp cs w)) = true ->
  force_singlethreading_ (vpm w) = true
  \/ (openmp = false /\ call_init ∈ cs).
Proof.
  revert w. induction cs as [|c cs IH]; intros w Hf; [now left|].
  cbn [run_calls List.fold_left] in Hf. apply IH in Hf.
  destruct Hf as [Hf|[Ho Hin]].
  - apply run_call_sets_flag in Hf. destruct Hf as [Hf|[Ho ->]]; [now left|].
    right. split; [assumption|]. apply elem_of_cons. now left.
  - right. split; [assumption|]. apply elem_of_cons. now right.
Qed.

Lemma run_calls_flag_set_only_by_init_witness :
  force_singlethreading_ (vpm {| vpm := with_threads 4; trace := [] |}) = true
  \/ (false = false /\ call_init ∈ [call_init]).
Proof.
  apply (run_calls_flag_set_only_by_init false [call_init]
           {| vpm := with_threads 4; trace := [] |}).
  reflexivity.
Defined.

(** ** What [set_status] tells the collaborators *)

Ltac split_elem_of H :=
  repeat first
    [ apply elem_of_nil in H; destruct H
    | apply elem_of_cons in H; destruct H as [H|H]; [try discriminate H|] ].

Ltac grown_trace :=
  first
    [ exists []; split; [symmetry; apply app_nil_r|]
    | eexists; split; [rewrite <- ?app_assoc; reflexivity|] ].

(** X22. [set_status] only appends to the trace, and the only message it ever
    records is the [M_WARNING] "No multithreading available, using single
    threading"; it records it only when the degraded flag was set before the
    call. *)
Theorem set_status_only_warns_when_degraded
    (openmp : bool) (net : Network) (rd : bool) (comm : Communicator)
    (u : Z) (d : Dictionary) (w : World) :
  exists evs : list Event,
    trace (set_status openmp net rd comm u d w).2 = trace w ++ evs
    /\ forall sev from text,
         message sev from text ∈ evs ->
         sev = M_WARNING /\ text = no_multithreading
         /\ force_singlethreading_ (vpm w) = true.
Proof.
  set_status_cases u d w; grown_trace; intros sev from text Hin;
    unfold set_num_threads_events, warning_event in Hin;
    try match type of Hin with
        | context [(?x >? 1) && ?f] =>
            destruct ((x >? 1) && f) eqn:E;
            [apply andb_true_iff in E; destruct E as [_ E]|]
        end;
    destruct openmp; cbn [app] in Hin; split_elem_of Hin;
    injection Hin as -> _ ->; repeat split; assumption.
Qed.

(** X23. [Network::reset] is called exactly when the request carries
    [total_num_virtual_procs] and is accepted; an accepted request that
    carries only [local_num_threads] never calls it. *)
Theorem set_status_Network_reset_iff
    (openmp : bool) (net : Network) (rd : bool) (comm : Communicator)
    (u : Z) (d : Dictionary) (w : World) :
  let r := set_status openmp net rd comm u d w in
  exists evs : list Event,
    trace r.2 = trace w ++ evs
    /\ (Network_reset ∈ evs
        <-> is_Some (d !! "total_num_virtual_procs") /\ r.1 = Ok tt).
Proof.
  set_status_cases u d w; grown_trace; split.
  all: try (intros [_ Hok]; discriminate Hok).
  all: try (intros [[x Hx] _]; discriminate Hx).
  all: try (intros _; split; [eexists; reflexivity | reflexivity]).
  all: try (intros _; unfold set_num_threads_events;
            rewrite ?elem_of_app, ?elem_of_cons; tauto).
  all: intros Hin; exfalso; unfold set_num_threads_events, warning_event in Hin;
    try match type of Hin with
        | context [(?x >? 1) && ?f] => destruct ((x >? 1) && f)
        end;
    destruct openmp; cbn [app] in Hin; split_elem_of Hin.
Qed.

Lemma set_status_only_warns_when_degraded_witness :
  exists evs : list Event,
    trace (set_status false (pristine_network 1 0) true (on_rank 1 0) 0
             {[ "local_num_threads" := 8 ]} degraded_world).2
    = trace degraded_world ++ evs
    /\ forall sev from text,
         message sev from text ∈ evs ->
         sev = M_WARNING /\ text = no_multithreading
         /\ force_singlethreading_ (vpm degraded_world) = true.
Proof.
  apply (set_status_only_warns_when_degraded false (pristine_network 1 0) true
           (on_rank 1 0) 0 {[ "local_num_threads" := 8 ]} degraded_world).
Defined.

Lemma set_status_Network_reset_iff_witness :
  let r := set_status true (pristine_network 3 0) true (on_rank 3 0) 0
             {[ "local_num_threads" := 4 ]} fresh_world in
  exists evs : list Event,
    trace r.2 = trace fresh_world ++ evs
    /\ (Network_reset ∈ evs
        <-> is_Some (({[ "local_num_threads" := 4 ]} : Dictionary)
                       !! "total_num_virtual_procs")
            /\ r.1 = Ok tt).
Proof.
  apply (set_status_Network_reset_iff true (pristine_network 3 0) true
           (on_rank 3 0) 0 {[ "local_num_threads" := 4 ]} fresh_world).
Defined.
